(** * Seismic ETL pipeline ([src/app.py]): a shallow embedding

    The pipeline fetches a GeoJSON feature collection, flattens it into a
    pandas table, derives categorical columns and writes a CSV file.  This
    development embeds the Python code as executable Rocq functions and
    proves the properties stated for it.

    Conventions of the embedding:
    - a Python number (an [int] or a [float]) is a [PyNum.float]: a rational,
      an infinity or NaN.  Order comparisons of Python numbers are exact, so
      a rational carries every finite double and every integer faithfully.
      A number of a JSON document ([JNum]) stands for a float, or for an
      integer that fits 64 bits, which is what a numeric column of pandas
      holds;
    - a Python [str] is a list of code points ([pystr]);
    - a decoded JSON document is a [json] value, a [dict] being an
      association list in insertion order;
    - Python exceptions are explicit: a computation returns [Ok v] or
      [Raise e]; where the behaviour of pandas depends on how it infers a
      column's dtype from cells that are not of the data model's types, the
      embedding answers [Unmodelled] instead of guessing (see [result]). *)

From Stdlib Require Import List String Ascii Bool Arith ZArith NArith QArith Lia Lqa.
Import ListNotations.

Set Warnings "-register-all".

Open Scope string_scope.
Open Scope list_scope.

(* ================================================================== *)
(** ** Python numbers and their comparisons *)

Module PyNum.

Inductive float : Type :=
| Fin (q : Q)
| PInf
| NInf
| NaN.

(** [x < y] on Python numbers: false as soon as one side is NaN. *)
Definition lt (x y : float) : bool :=
  match x, y with
  | NaN, _ | _, NaN => false
  | Fin a, Fin b => negb (Qle_bool b a)
  | Fin _, PInf => true
  | Fin _, NInf => false
  | PInf, _ => false
  | NInf, NInf => false
  | NInf, _ => true
  end.

(** [x <= y]. *)
Definition le (x y : float) : bool :=
  match x, y with
  | NaN, _ | _, NaN => false
  | Fin a, Fin b => Qle_bool a b
  | Fin _, PInf => true
  | Fin _, NInf => false
  | PInf, PInf => true
  | PInf, _ => false
  | NInf, _ => true
  end.

Definition isna (x : float) : bool :=
  match x with NaN => true | _ => false end.

(** An integer literal of the source. *)
Definition int (z : Z) : float := Fin (inject_Z z).

(** A decimal literal [n / d]. *)
Definition dec (n : Z) (d : positive) : float := Fin (n # d).

End PyNum.

Import PyNum.

(* ================================================================== *)
(** ** The continent classifier: [get_continent] (lines 75-90) *)

Definition get_continent (lat lon : float) : string :=
  if le (int (-120)) lon && le lon (int (-30)) && le (int 30) lat && le lat (int 70)
  then "North America"
  else if le (int (-20)) lon && le lon (int 50) && le (int (-35)) lat && le lat (int 37)
  then "Africa"
  else if le (int (-10)) lon && le lon (int 40) && le (int 35) lat && le lat (int 70)
  then "Europe"
  else if le (int 60) lon && le lon (int 150) && le (int 5) lat && le lat (int 45)
  then "Asia"
  else if le (int 110) lon && le lon (int 180) && le (int (-50)) lat && le lat (int (-10))
  then "Australia"
  else if le (int (-90)) lon && le lon (int (-30)) && le (int (-60)) lat && le lat (int 15)
  then "South America"
  else "Ocean".

(** The specification's reading of the classifier: an ordered table of
    bounding boxes, scanned from the front, with a default label. *)

Record box : Type := Box {
  label : string;
  lon_min : Z; lon_max : Z;
  lat_min : Z; lat_max : Z
}.

Definition in_box (lat lon : float) (b : box) : bool :=
  le (int (lon_min b)) lon && le lon (int (lon_max b))
  && le (int (lat_min b)) lat && le lat (int (lat_max b)).

Definition bounding_boxes : list box :=
  [ Box "North America" (-120) (-30) 30 70;
    Box "Africa" (-20) 50 (-35) 37;
    Box "Europe" (-10) 40 35 70;
    Box "Asia" 60 150 5 45;
    Box "Australia" 110 180 (-50) (-10);
    Box "South America" (-90) (-30) (-60) 15 ].

Definition first_match_spec (lat lon : float) : string :=
  match find (in_box lat lon) bounding_boxes with
  | Some b => label b
  | None => "Ocean"
  end.

Definition continents : list string :=
  [ "North America"; "Africa"; "Europe"; "Asia"; "Australia";
    "South America"; "Ocean" ].

(* ================================================================== *)
(** ** [pandas.cut] with explicit bin edges and labels

    [pd.cut(x, bins, labels)] with the defaults [right=True],
    [include_lowest=False]: each value is located among the sorted edges by
    [searchsorted(side='left')]; a value that is NaN, or lands before the
    first edge or after the last one, becomes a missing value; otherwise it
    takes the label of its interval. *)

Module Pandas.

(** [bins.searchsorted(x, side='left')] on sorted edges: the index of the
    first edge that is not below [x]. *)
Fixpoint searchsorted_left (bins : list float) (x : float) : nat :=
  match bins with
  | [] => 0
  | b :: rest => if lt b x then S (searchsorted_left rest x) else 0
  end.

Definition cut1 (bins : list float) (labels : list string) (x : float)
  : option string :=
  let ids := searchsorted_left bins x in
  if isna x || (ids =? List.length bins)%nat || (ids =? 0)%nat then None
  else nth_error labels (ids - 1)%nat.

(** [pd.cut] over a column. *)
Definition cut (col : list float) (bins : list float) (labels : list string)
  : list (option string) :=
  map (cut1 bins labels) col.

End Pandas.

(** The two binnings of [process_data] (lines 59-64), on one value. *)

Definition severity_bins : list float := [int 0; int 3; int 5; int 7; int 10].
Definition severity_labels : list string := ["leve"; "moderado"; "fuerte"; "grave"].
Definition depth_bins : list float := [int 0; int 30; int 100; int 300; int 700].
Definition depth_labels : list string :=
  ["superficial"; "intermedio"; "profundo"; "manto"].

Definition severity (m : float) : option string :=
  Pandas.cut1 severity_bins severity_labels m.

Definition depth_category (d : float) : option string :=
  Pandas.cut1 depth_bins depth_labels d.

(* ================================================================== *)
(** ** Python values, exceptions and subscripting *)

(** A Python [str]: its code points. *)
Definition pystr : Type := list N.

Definition codes (s : string) : pystr :=
  map N_of_ascii (list_ascii_of_string s).

(** A decoded JSON document ([response.json()]). *)
Inductive json : Type :=
| JNull
| JBool (b : bool)
| JNum (x : float)
| JStr (s : pystr)
| JArr (l : list json)
| JObj (kv : list (string * json)).

(** What goes between the brackets of [v[k]]. *)
Inductive subscript : Type :=
| Key (k : string)
| Idx (n : nat).

Inductive exn : Type :=
| KeyError (k : subscript)
| IndexError
| TypeError
| AttributeError
(* requests.exceptions *)
| ConnectionError (msg : string)
| Timeout (msg : string)
| HTTPError (status : nat)
(* raised by the operating system under [to_csv] *)
| OSError (msg : string).

Inductive result (A : Type) : Type :=
| Ok (a : A)
| Raise (e : exn)
| Unmodelled.

Arguments Ok {A} a.
Arguments Raise {A} e.
Arguments Unmodelled {A}.

Definition bind {A B : Type} (m : result A) (k : A -> result B) : result B :=
  match m with
  | Ok a => k a
  | Raise e => Raise e
  | Unmodelled => Unmodelled
  end.

Notation "x <- m ;; k" := (bind m (fun x => k))
  (at level 61, m at next level, right associativity).

(** A [for] loop that builds a list: stops at the first exception. *)
Fixpoint mapM {A B : Type} (f : A -> result B) (l : list A) : result (list B) :=
  match l with
  | [] => Ok []
  | a :: rest =>
      b <- f a ;;
      bs <- mapM f rest ;;
      Ok (b :: bs)
  end.

Fixpoint dict_get (kv : list (string * json)) (k : string) : option json :=
  match kv with
  | [] => None
  | (k', v) :: rest => if String.eqb k' k then Some v else dict_get rest k
  end.

(** [v[k]] on a decoded JSON value. *)
Definition getitem (v : json) (k : subscript) : result json :=
  match v, k with
  | JObj kv, Key s =>
      match dict_get kv s with
      | Some x => Ok x
      | None => Raise (KeyError k)
      end
  | JObj _, Idx _ => Raise (KeyError k)      (* JSON keys are strings *)
  | JArr l, Idx n =>
      match nth_error l n with
      | Some x => Ok x
      | None => Raise IndexError
      end
  | JArr _, Key _ => Raise TypeError
  | JStr s, Idx n =>
      match nth_error s n with
      | Some c => Ok (JStr [c])
      | None => Raise IndexError
      end
  | JStr _, Key _ => Raise TypeError
  | (JNull | JBool _ | JNum _), _ => Raise TypeError
  end.

(** [bool(v)]. *)
Definition truthy (v : json) : bool :=
  match v with
  | JNull => false
  | JBool b => b
  | JNum (Fin q) => negb (Qeq_bool q 0)
  | JNum _ => true
  | JStr s => negb (List.length s =? 0)%nat
  | JArr l => negb (List.length l =? 0)%nat
  | JObj kv => negb (List.length kv =? 0)%nat
  end.

(** [for x in v]: the items a loop over [v] visits. *)
Definition iter (v : json) : result (list json) :=
  match v with
  | JArr l => Ok l
  | JObj kv => Ok (map (fun p => JStr (codes (fst p))) kv)
  | JStr s => Ok (map (fun c => JStr [c]) s)
  | JNull | JBool _ | JNum _ => Raise TypeError
  end.

(* ================================================================== *)
(** ** The region pattern: [re.search(r',\s*([^,]+)$', place)]

    The matcher follows the backtracking order of Python's [re]: the
    leftmost start wins, [\s*] and [[^,]+] are greedy and give characters
    back one at a time, [$] holds at the end of the string or just before a
    final newline. *)

Module Regex.

Definition comma : N := 44.
Definition newline : N := 10.

(** [\s] on a [str] pattern: the Unicode whitespace of [str.isspace]. *)
Definition is_space (c : N) : bool :=
  ((9 <=? c) && (c <=? 13) || (28 <=? c) && (c <=? 32)
   || (c =? 133) || (c =? 160) || (c =? 5760)
   || (8192 <=? c) && (c <=? 8202)
   || (c =? 8232) || (c =? 8233) || (c =? 8239) || (c =? 8287)
   || (c =? 12288))%N.

(** [$] *)
Definition at_end (s : pystr) : bool :=
  match s with
  | [] => true
  | [c] => (c =? newline)%N
  | _ => false
  end.

(** [[^,]*$], greedy; returns the characters consumed. *)
Fixpoint star_dollar (s : pystr) : option pystr :=
  match s with
  | [] => Some []
  | c :: rest =>
      if (c =? comma)%N then (if at_end s then Some [] else None)
      else match star_dollar rest with
           | Some g => Some (c :: g)
           | None => if at_end s then Some [] else None
           end
  end.

(** [([^,]+)$]; returns the group. *)
Definition plus_dollar (s : pystr) : option pystr :=
  match s with
  | [] => None
  | c :: rest =>
      if (c =? comma)%N then None
      else option_map (cons c) (star_dollar rest)
  end.

(** [\s*([^,]+)$], [\s*] greedy. *)
Fixpoint spaces_then (s : pystr) : option pystr :=
  match s with
  | [] => plus_dollar s
  | c :: rest =>
      if is_space c then
        match spaces_then rest with
        | Some g => Some g
        | None => plus_dollar s
        end
      else plus_dollar s
  end.

(** The whole pattern anchored at the head of [s]. *)
Definition match_here (s : pystr) : option pystr :=
  match s with
  | c :: rest => if (c =? comma)%N then spaces_then rest else None
  | [] => None
  end.

(** [re.search]: the first start position that matches. *)
Fixpoint search (s : pystr) : option pystr :=
  match match_here s with
  | Some g => Some g
  | None =>
      match s with
      | [] => None
      | _ :: rest => search rest
      end
  end.

End Regex.

(** The derived region of one place string (line 58). *)
Definition region (place : pystr) : option pystr := Regex.search place.

(* ================================================================== *)
(** ** The table: a pandas [DataFrame], column by column *)

(** A column and its dtype.  The two float-arithmetic columns are kept
    symbolic: [EnergyCol] holds the magnitude [m] of
    [10 ** (1.5 * m + 4.8)], [CoastCol] the depth [d] and the noise sample
    [e] of [abs(d) * 10 + e]. *)
Inductive column : Type :=
| ObjCol (l : list json)              (* the values as decoded, before pandas
                                         converts them to the column's dtype:
                                         a null of a numeric column is read
                                         as NaN by [Series.numeric] *)
| TimeCol (l : list (option Z))       (* datetime64: ms since the epoch, [None] is NaT *)
| StrCol (l : list (option pystr))    (* strings, [None] is NaN *)
| CatCol (l : list (option string))   (* categorical, [None] is NaN *)
| LabelCol (l : list string)          (* strings returned by [apply] *)
| EnergyCol (l : list float)
| CoastCol (l : list (float * float)).

Record DataFrame : Type := {
  index : nat;                        (* number of rows *)
  columns : list (string * column)    (* in column order *)
}.

(** One dict appended by the loop of [process_data] (lines 43-52). *)
Record RawEvent : Type := {
  raw_time : json;
  raw_magnitude : json;
  raw_place : json;
  raw_depth_km : json;
  raw_longitude : json;
  raw_latitude : json;
  raw_type : json;
  raw_status : json
}.

Module Frame.

(** [pd.DataFrame()] *)
Definition empty_frame : DataFrame := {| index := 0; columns := [] |}.

(** [pd.DataFrame(features)]: the columns are the keys of the dicts; an
    empty list yields a frame with no rows and no columns. *)
Definition of_records (features : list RawEvent) : DataFrame :=
  match features with
  | [] => empty_frame
  | _ :: _ =>
      {| index := List.length features;
         columns :=
           [ ("time", ObjCol (map raw_time features));
             ("magnitude", ObjCol (map raw_magnitude features));
             ("place", ObjCol (map raw_place features));
             ("depth_km", ObjCol (map raw_depth_km features));
             ("longitude", ObjCol (map raw_longitude features));
             ("latitude", ObjCol (map raw_latitude features));
             ("type", ObjCol (map raw_type features));
             ("status", ObjCol (map raw_status features)) ] |}
  end.

Fixpoint lookup (cols : list (string * column)) (name : string) : option column :=
  match cols with
  | [] => None
  | (n, c) :: rest => if String.eqb n name then Some c else lookup rest name
  end.

(** [df[name]] *)
Definition getcol (df : DataFrame) (name : string) : result column :=
  match lookup (columns df) name with
  | Some c => Ok c
  | None => Raise (KeyError (Key name))
  end.

Fixpoint assign (cols : list (string * column)) (name : string) (c : column)
  : list (string * column) :=
  match cols with
  | [] => [(name, c)]
  | (n, c') :: rest =>
      if String.eqb n name then (n, c) :: rest
      else (n, c') :: assign rest name c
  end.

(** [df[name] = c]: replaces the column, or appends a new last one. *)
Definition setcol (df : DataFrame) (name : string) (c : column) : DataFrame :=
  {| index := index df; columns := assign (columns df) name c |}.

(** [len(df)] *)
Definition len (df : DataFrame) : nat := index df.

(** [df.empty]: some axis has length 0. *)
Definition empty (df : DataFrame) : bool :=
  (index df =? 0)%nat || (List.length (columns df) =? 0)%nat.

Definition col_length (c : column) : nat :=
  match c with
  | ObjCol l => List.length l
  | TimeCol l => List.length l
  | StrCol l => List.length l
  | CatCol l => List.length l
  | LabelCol l => List.length l
  | EnergyCol l => List.length l
  | CoastCol l => List.length l
  end.

End Frame.

(** *** Column operations used by [process_data]

    Each reads an object column as pandas would for cells of the data
    model's types: numbers (with nulls among them) as float64, integral
    epoch milliseconds as datetime64, strings and nulls as strings.  For any
    other mix of cells the inferred dtype, and with it the outcome, is not
    modelled. *)

Module Series.

Definition is_null (v : json) : bool :=
  match v with JNull => true | _ => false end.

Definition int64_min : Z := - 2 ^ 63.
Definition int64_max : Z := 2 ^ 63 - 1.

(** A number: a cell that a float64 or int64 column holds as it is. *)
Definition is_number (v : json) : bool :=
  match v with
  | JNum _ => true
  | _ => false
  end.

Definition to_float (v : json) : float :=
  match v with
  | JNum x => x
  | _ => NaN
  end.

(** The values of a numeric column; a null among numbers reads as NaN. *)
Definition numeric (c : column) : result (list float) :=
  match c with
  | ObjCol l =>
      if forallb (fun v => is_number v || is_null v) l && existsb is_number l
      then Ok (map to_float l)
      else Unmodelled
  | _ => Unmodelled
  end.

(** An integral count of milliseconds inside the datetime64[ns] range. *)
Definition epoch_ms (v : json) : option Z :=
  match v with
  | JNum (Fin q) =>
      let r := Qred q in
      if (Zpos (Qden r) =? 1)%Z
         && (int64_min <? Qnum r * 1000000)%Z
         && (Qnum r * 1000000 <=? int64_max)%Z
      then Some (Qnum r)
      else None
  | _ => None
  end.

Definition is_epoch_ms (v : json) : bool :=
  match epoch_ms v with Some _ => true | None => false end.

(** [pd.to_datetime(col, unit='ms')] *)
Definition to_datetime (c : column) : result (list (option Z)) :=
  match c with
  | ObjCol l =>
      if forallb (fun v => is_epoch_ms v || is_null v) l
      then Ok (map epoch_ms l)
      else Unmodelled
  | _ => Unmodelled
  end.

(** [col.dt.hour]: NaT gives NaN. *)
Definition dt_hour (c : column) : result (list (option Z)) :=
  match c with
  | TimeCol l => Ok (map (option_map (fun ms => (ms / 3600000) mod 24)%Z) l)
  | _ => Raise AttributeError
  end.

Definition is_str_or_null (v : json) : bool :=
  match v with JStr _ | JNull => true | _ => false end.

Definition is_num (v : json) : bool :=
  match v with JNum _ => true | _ => false end.

Definition extract_cell (v : json) : option pystr :=
  match v with
  | JStr s => region s
  | _ => None
  end.

(** [col.str.extract(r',\s*([^,]+)$')]: the group per string, NaN where
    the pattern does not match or the cell is null.  A column of numbers
    has no [.str] accessor. *)
Definition str_extract (c : column) : result (list (option pystr)) :=
  match c with
  | ObjCol l =>
      if forallb is_str_or_null l then Ok (map extract_cell l)
      else if forallb is_num l then Raise AttributeError
      else Unmodelled
  | _ => Unmodelled
  end.

End Series.

(* ================================================================== *)
(** ** The transformer: [process_data] (lines 34-73) *)

(** The body of the loop over the features (lines 41-52); the dict display
    evaluates its values in the order written. *)
Definition record_of (feature : json) : result RawEvent :=
  props <- getitem feature (Key "properties") ;;
  geometry <- getitem feature (Key "geometry") ;;
  time <- getitem props (Key "time") ;;
  magnitude <- getitem props (Key "mag") ;;
  place <- getitem props (Key "place") ;;
  coordinates <- getitem geometry (Key "coordinates") ;;
  depth_km <- getitem coordinates (Idx 2) ;;
  coordinates <- getitem geometry (Key "coordinates") ;;
  longitude <- getitem coordinates (Idx 0) ;;
  coordinates <- getitem geometry (Key "coordinates") ;;
  latitude <- getitem coordinates (Idx 1) ;;
  type <- getitem props (Key "type") ;;
  status <- getitem props (Key "status") ;;
  Ok {| raw_time := time; raw_magnitude := magnitude; raw_place := place;
        raw_depth_km := depth_km; raw_longitude := longitude;
        raw_latitude := latitude; raw_type := type; raw_status := status |}.

(** The lambda of line 66, on the hour of one timestamp (NaN for NaT:
    both comparisons are then false). *)
Definition time_of_day (hour : option Z) : string :=
  match hour with
  | Some x => if (x <? 6)%Z || (x >=? 18)%Z then "noche" else "dia"
  | None => "dia"
  end.

(** [np.random.normal(50, 20, n)]: the generator is an input, [normal i]
    being its [i]-th sample. *)
Definition random_normal (normal : nat -> float) (n : nat) : list float :=
  map normal (seq 0 n).

Definition process_data (normal : nat -> float) (raw_data : json)
  : result DataFrame :=
  if negb (truthy raw_data) then Ok Frame.empty_frame
  else
    fs <- getitem raw_data (Key "features") ;;
    items <- iter fs ;;
    features <- mapM record_of items ;;
    let df := Frame.of_records features in
    (* line 57 *)
    c <- Frame.getcol df "time" ;;
    t <- Series.to_datetime c ;;
    let df := Frame.setcol df "time" (TimeCol t) in
    (* line 58 *)
    c <- Frame.getcol df "place" ;;
    r <- Series.str_extract c ;;
    let df := Frame.setcol df "region" (StrCol r) in
    (* lines 59-61 *)
    c <- Frame.getcol df "magnitude" ;;
    m <- Series.numeric c ;;
    let df := Frame.setcol df "severity"
                (CatCol (Pandas.cut m severity_bins severity_labels)) in
    (* lines 62-64 *)
    c <- Frame.getcol df "depth_km" ;;
    d <- Series.numeric c ;;
    let df := Frame.setcol df "depth_category"
                (CatCol (Pandas.cut d depth_bins depth_labels)) in
    (* lines 65-66 *)
    c <- Frame.getcol df "time" ;;
    h <- Series.dt_hour c ;;
    let df := Frame.setcol df "time_of_day" (LabelCol (map time_of_day h)) in
    (* line 67 *)
    c <- Frame.getcol df "latitude" ;;
    lat <- Series.numeric c ;;
    c <- Frame.getcol df "longitude" ;;
    lon <- Series.numeric c ;;
    let df := Frame.setcol df "continent"
                (LabelCol (map (fun p => get_continent (fst p) (snd p))
                               (combine lat lon))) in
    (* line 70 *)
    c <- Frame.getcol df "magnitude" ;;
    m <- Series.numeric c ;;
    let df := Frame.setcol df "energy_joules" (EnergyCol m) in
    (* line 71 *)
    c <- Frame.getcol df "depth_km" ;;
    d <- Series.numeric c ;;
    let df := Frame.setcol df "coast_distance_km"
                (CoastCol (combine d (random_normal normal (Frame.len df)))) in
    Ok df.

(* ================================================================== *)
(** ** The fetcher: [fetch_earthquake_data] (lines 24-32) *)

Module Requests.

Record response : Type := {
  status_code : nat;
  body : option json          (* [None]: the body is not a JSON text *)
}.

(** What the network does with the one GET request. *)
Inductive network : Type :=
| Unreachable (msg : string)      (* no connection could be made *)
| NoAnswerInTime (msg : string)   (* the connection or the read timed out *)
| Answers (r : response).

(** [requests.get(url, params=...)] *)
Definition get (net : network) : result response :=
  match net with
  | Unreachable msg => Raise (ConnectionError msg)
  | NoAnswerInTime msg => Raise (Timeout msg)
  | Answers r => Ok r
  end.

(** [response.raise_for_status()]: raises for the client-error and
    server-error statuses, 400 to 599. *)
Definition raise_for_status (r : response) : result unit :=
  if (400 <=? status_code r)%nat && (status_code r <? 600)%nat
  then Raise (HTTPError (status_code r))
  else Ok tt.

(** [response.json()].  Which exception a body that is not JSON raises,
    and whether it is a [RequestException], depends on the version of
    requests: not modelled. *)
Definition json_body (r : response) : result json :=
  match body r with
  | Some j => Ok j
  | None => Unmodelled
  end.

(** [isinstance(e, requests.exceptions.RequestException)] *)
Definition is_RequestException (e : exn) : bool :=
  match e with
  | ConnectionError _ | Timeout _ | HTTPError _ => true
  | _ => false
  end.

End Requests.

Section Effects.

(** [str(e)], the text of an exception in a formatted message. *)
Variable str_exn : exn -> string.

(** Returns the value of the call and the lines printed. *)
Definition fetch_earthquake_data (net : Requests.network)
  : result json * list string :=
  match (response <- Requests.get net ;;
         _ <- Requests.raise_for_status response ;;
         Requests.json_body response) with
  | Ok data => (Ok data, [])
  | Raise e =>
      if Requests.is_RequestException e
      then (Ok JNull, [String.append "Error al obtener datos: " (str_exn e)])
      else (Raise e, [])
  | Unmodelled => (Unmodelled, [])
  end.

(** ** The writer: [save_to_csv] (lines 92-103) *)

Record World : Type := {
  base_dir : string;                    (* [BASE_DIR], an absolute path, not the root *)
  files : list (string * DataFrame);    (* path and table written *)
  console : list string;
  disk_error : option string            (* [Some msg]: writing fails with [msg] *)
}.

Definition print (w : World) (line : string) : World :=
  {| base_dir := base_dir w; files := files w;
     console := console w ++ [line]; disk_error := disk_error w |}.

Fixpoint write (fs : list (string * DataFrame)) (path : string) (df : DataFrame)
  : list (string * DataFrame) :=
  match fs with
  | [] => [(path, df)]
  | (p, d) :: rest =>
      if String.eqb p path then (p, df) :: rest
      else (p, d) :: write rest path df
  end.

(** [df.to_csv(path, index=False)].  A write that fails is one that fails
    before the file is opened; a failure after that, which can leave a
    partial file behind, is not modelled. *)
Definition to_csv (w : World) (path : string) (df : DataFrame) : result World :=
  match disk_error w with
  | Some msg => Raise (OSError msg)
  | None =>
      Ok {| base_dir := base_dir w; files := write (files w) path df;
            console := console w; disk_error := disk_error w |}
  end.

(** [output_path] is [DATA_DIR / filename] written out for a plain file
    name (no separator in it), as the default name is. *)
Definition save_to_csv (df : DataFrame) (filename : string) (w : World) : World :=
  let output_path :=
    String.append (base_dir w) (String.append "/datos/" filename) in
  (* [except Exception] catches every exception of the block *)
  match (if negb (Frame.empty df) then
           w1 <- to_csv w output_path df ;;
           let w2 := print w1 (String.append "Datos guardados en: " output_path) in
           Ok (print w2 (String.append "Ruta absoluta: " output_path))
         else Ok (print w "No hay datos para guardar")) with
  | Ok w' => w'
  | Raise e => print w (String.append "Error al guardar archivo: " (str_exn e))
  | Unmodelled => w
  end.

End Effects.

(* ================================================================== *)
(** ** Vocabulary of the statements *)

(** [v.get(k)] read as a lookup that finds nothing in a non-object. *)
Definition member (v : json) (k : string) : option json :=
  match v with
  | JObj kv => dict_get kv k
  | _ => None
  end.

Definition has_key (v : json) (k : string) : bool :=
  match member v k with Some _ => true | None => false end.

Definition property_keys : list string :=
  ["time"; "mag"; "place"; "type"; "status"].

Definition coordinates_of (feature : json) : option json :=
  match member feature "geometry" with
  | Some g => member g "coordinates"
  | None => None
  end.

(** The feature has [properties] with the five keys and
    [geometry.coordinates] is an array of three elements. *)
Definition has_required (feature : json) : bool :=
  match member feature "properties" with
  | Some p => forallb (has_key p) property_keys
  | None => false
  end
  && match coordinates_of feature with
     | Some (JArr l) => (List.length l =? 3)%nat
     | _ => false
     end.

(** One of the required keys is missing: [properties] or one of its five
    keys, [geometry], its [coordinates], or an element among the first
    three of the array. *)
Definition lacks_required (feature : json) : bool :=
  match member feature "properties" with
  | Some p => existsb (fun k => negb (has_key p k)) property_keys
  | None => true
  end
  || match coordinates_of feature with
     | None => true
     | Some (JArr l) => (List.length l <? 3)%nat
     | Some _ => false
     end.

Definition holds (P : json -> bool) (o : option json) : bool :=
  match o with Some v => P v | None => false end.

(** The columns of the enriched table, in order. *)
Definition enriched_columns : list string :=
  [ "time"; "magnitude"; "place"; "depth_km"; "longitude"; "latitude";
    "type"; "status"; "region"; "severity"; "depth_category"; "time_of_day";
    "continent"; "energy_joules"; "coast_distance_km" ].

(** The table the statements expect from a non-empty list of flattened
    records: the eight raw columns, [time] converted, followed by the seven
    derived ones. *)
Definition enriched_frame (normal : nat -> float) (recs : list RawEvent)
  : DataFrame :=
  let mag := map Series.to_float (map raw_magnitude recs) in
  let depth := map Series.to_float (map raw_depth_km recs) in
  let lat := map Series.to_float (map raw_latitude recs) in
  let lon := map Series.to_float (map raw_longitude recs) in
  let time := map Series.epoch_ms (map raw_time recs) in
  {| index := List.length recs;
     columns :=
       [ ("time", TimeCol time);
         ("magnitude", ObjCol (map raw_magnitude recs));
         ("place", ObjCol (map raw_place recs));
         ("depth_km", ObjCol (map raw_depth_km recs));
         ("longitude", ObjCol (map raw_longitude recs));
         ("latitude", ObjCol (map raw_latitude recs));
         ("type", ObjCol (map raw_type recs));
         ("status", ObjCol (map raw_status recs));
         ("region", StrCol (map Series.extract_cell (map raw_place recs)));
         ("severity", CatCol (map severity mag));
         ("depth_category", CatCol (map depth_category depth));
         ("time_of_day",
          LabelCol (map time_of_day
                      (map (option_map (fun ms => (ms / 3600000) mod 24)%Z) time)));
         ("continent",
          LabelCol (map (fun p => get_continent (fst p) (snd p))
                        (combine lat lon)));
         ("energy_joules", EnergyCol mag);
         ("coast_distance_km",
          CoastCol (combine depth (map normal (seq 0 (List.length recs))))) ] |}.

(** A feature as the API sends it, with the given property values and
    coordinates. *)
Definition feature_of (time mag place ty st : json) (coordinates : json) : json :=
  JObj [ ("type", JStr (codes "Feature"));
         ("properties",
          JObj [ ("mag", mag); ("place", place); ("time", time);
                 ("status", st); ("type", ty) ]);
         ("geometry",
          JObj [ ("type", JStr (codes "Point"));
                 ("coordinates", coordinates) ]) ].

(** The mocked feature of the end-to-end case; [type] and [status] are
    present with values of any kind. *)
Definition sample_feature (ty st : json) : json :=
  feature_of (JNum (int 0)) (JNum (int 6))
    (JStr (codes "10km SE of Testville, Nowhereland")) ty st
    (JArr [JNum (int (-100)); JNum (int 40); JNum (int 15)]).

Definition collection (features : list json) : json :=
  JObj [ ("type", JStr (codes "FeatureCollection"));
         ("features", JArr features) ].

Definition two_features : list json :=
  [ sample_feature JNull JNull;
    feature_of (JNum (int 1700000000000)) (JNum (dec 27 10)) JNull
      (JStr (codes "earthquake")) (JStr (codes "reviewed"))
      (JArr [JNum (dec 1425 10); JNum (dec (-65) 10); JNum (int 0)]) ].

(** A feature without [properties.time] and with an empty coordinates
    array, between two well-formed ones. *)
Definition one_bad_among_three : list json :=
  [ sample_feature JNull JNull;
    JObj [ ("properties", JObj [("mag", JNum (int 4))]);
           ("geometry", JObj [("coordinates", JArr [])]) ];
    sample_feature JNull JNull ].

(** A feature with every required key and a number as its place. *)
Definition numeric_place_feature : json :=
  feature_of (JNum (int 0)) (JNum (int 6)) (JNum (int 5)) JNull JNull
    (JArr [JNum (int (-100)); JNum (int 40); JNum (int 15)]).

(** The statuses for which [raise_for_status] raises. *)
Definition error_status (status : nat) : Prop := (400 <= status < 600)%nat.

Definition lookup_error (e : exn) : bool :=
  match e with
  | KeyError _ | IndexError | TypeError => true
  | _ => false
  end.

(** A generator that always answers the mean and a console that prints the
    class of an exception: concrete inputs for the examples. *)
Definition constant_normal : nat -> float := fun _ => int 50.

Definition class_name (e : exn) : string :=
  match e with
  | KeyError _ => "KeyError"
  | IndexError => "IndexError"
  | TypeError => "TypeError"
  | AttributeError => "AttributeError"
  | ConnectionError _ => "ConnectionError"
  | Timeout _ => "Timeout"
  | HTTPError _ => "HTTPError"
  | OSError _ => "OSError"
  end.

(** The two readings of "the last comma-delimited token", as functions of
    the place alone: what follows the final comma, and the same with
    leading whitespace removed (the last character is kept when nothing
    else is left). *)

Fixpoint after_last_comma (s : pystr) : option pystr :=
  match s with
  | [] => None
  | c :: rest =>
      match after_last_comma rest with
      | Some r => Some r
      | None => if (c =? Regex.comma)%N then Some rest else None
      end
  end.

Fixpoint lstrip_keep_one (s : pystr) : option pystr :=
  match s with
  | [] => None
  | c :: rest =>
      if Regex.is_space c then
        match lstrip_keep_one rest with
        | Some g => Some g
        | None => Some [c]
        end
      else Some s
  end.

Definition has_comma (s : pystr) : bool := existsb (N.eqb Regex.comma) s.

(* ================================================================== *)
(** ** The driver: the [__main__] block (lines 105-126) *)

(** [col.min()] and [col.max()] of a datetime column: NaT cells are
    skipped, and the answer is NaT when every cell is. *)
Fixpoint time_min (l : list (option Z)) : option Z :=
  match l with
  | [] => None
  | t :: rest =>
      match t, time_min rest with
      | Some a, Some b => Some (Z.min a b)
      | Some a, None => Some a
      | None, m => m
      end
  end.

Fixpoint time_max (l : list (option Z)) : option Z :=
  match l with
  | [] => None
  | t :: rest =>
      match t, time_max rest with
      | Some a, Some b => Some (Z.max a b)
      | Some a, None => Some a
      | None, m => m
      end
  end.

Definition col_min (c : column) : result (option Z) :=
  match c with
  | TimeCol l => Ok (time_min l)
  | _ => Unmodelled
  end.

Definition col_max (c : column) : result (option Z) :=
  match c with
  | TimeCol l => Ok (time_max l)
  | _ => Unmodelled
  end.

(** The line feed that opens three of the messages. *)
Definition nl : string := String (ascii_of_nat 10) EmptyString.

(** The default of the [filename] parameter of [save_to_csv]. *)
Definition default_filename : string := "earthquake_data.csv".

Section Driver.

(** What the interpreter and pandas render: [str(e)], [str(n)], the text of
    a timestamp and the lines that [df.info()] prints. *)
Variable str_exn : exn -> string.
Variable str_nat : nat -> string.
Variable str_time : option Z -> string.
Variable info_lines : DataFrame -> list string.

(** The random generator behind [np.random.normal]. *)
Variable normal : nat -> float.

(** Runs the block on the world [w] with the network answering [net];
    returns the world it leaves and how it ended: [Ok tt], or the exception
    that stopped it. *)
Definition main (net : Requests.network) (w : World) : World * result unit :=
  let w := print w "=== Sistema de Extracción de Datos Sísmicos ===" in
  let w := print w (String.append "Directorio base: " (base_dir w)) in
  let w := print w (String.append "Destino de datos: "
                      (String.append (base_dir w) "/datos")) in
  let w := print w (String.append nl "Obteniendo datos de terremotos...") in
  let (fetched, lines) := fetch_earthquake_data str_exn net in
  let w := fold_left print lines w in
  match fetched with
  | Raise e => (w, Raise e)
  | Unmodelled => (w, Unmodelled)
  | Ok raw_data =>
      if truthy raw_data then
        let w := print w "Procesando datos..." in
        match process_data normal raw_data with
        | Raise e => (w, Raise e)
        | Unmodelled => (w, Unmodelled)
        | Ok df =>
            let w := print w (String.append nl "Resumen de datos:") in
            let w := print w (String.append "Registros obtenidos: "
                                (str_nat (Frame.len df))) in
            match (c <- Frame.getcol df "time" ;;
                   lo <- col_min c ;;
                   c <- Frame.getcol df "time" ;;
                   hi <- col_max c ;;
                   Ok (lo, hi)) with
            | Raise e => (w, Raise e)
            | Unmodelled => (w, Unmodelled)
            | Ok (lo, hi) =>
                let w := print w (String.append "Rango temporal: "
                                    (String.append (str_time lo)
                                       (String.append " a " (str_time hi)))) in
                let w := save_to_csv str_exn df default_filename w in
                let w := print w (String.append nl "Estructura del dataset:") in
                let w := fold_left print (info_lines df) w in
                (print w "None", Ok tt)
            end
        end
      else
        (print w "No se pudieron obtener datos. Verifica tu conexión a internet.",
         Ok tt)
  end.

End Driver.

(* ================================================================== *)
(** ** Further vocabulary *)

(** The six boxes of [get_continent], by name. *)
Definition box_north_america : box := Box "North America" (-120) (-30) 30 70.
Definition box_africa : box := Box "Africa" (-20) 50 (-35) 37.
Definition box_europe : box := Box "Europe" (-10) 40 35 70.
Definition box_asia : box := Box "Asia" 60 150 5 45.
Definition box_australia : box := Box "Australia" 110 180 (-50) (-10).
Definition box_south_america : box := Box "South America" (-90) (-30) (-60) 15.

(** The table stored under a path. *)
Fixpoint read (fs : list (string * DataFrame)) (path : string) : option DataFrame :=
  match fs with
  | [] => None
  | (p, d) :: rest => if String.eqb p path then Some d else read rest path
  end.

(** Where [save_to_csv] writes. *)
Definition output_path_of (w : World) (filename : string) : string :=
  String.append (base_dir w) (String.append "/datos/" filename).

(** The hour of the day of a timestamp, as [Series.dt_hour] computes it. *)
Definition hour_of_ms (ms : Z) : Z := ((ms / 3600000) mod 24)%Z.

(** The values a feature holds under the keys the loop reads. *)
Definition property_of (feature : json) (k : string) : option json :=
  match member feature "properties" with
  | Some p => member p k
  | None => None
  end.

Definition coordinate_of (feature : json) (i : nat) : option json :=
  match coordinates_of feature with
  | Some (JArr l) => nth_error l i
  | _ => None
  end.

Definition number_or_null (v : json) : bool :=
  Series.is_number v || Series.is_null v.

Definition epoch_ms_or_null (v : json) : bool :=
  Series.is_epoch_ms v || Series.is_null v.

(** The feature has the required keys with values of the data model's
    types or null: [time] an integral number of epoch milliseconds or null,
    [mag] and each of the first three coordinates a number or null, [place]
    a string or null. *)
Definition nullable_feature (feature : json) : bool :=
  match member feature "properties", coordinates_of feature with
  | Some p, Some (JArr (lon :: lat :: depth :: _)) =>
      holds epoch_ms_or_null (member p "time")
      && holds number_or_null (member p "mag")
      && holds Series.is_str_or_null (member p "place")
      && has_key p "type" && has_key p "status"
      && number_or_null lon && number_or_null lat && number_or_null depth
  | _, _ => false
  end.

(** Some feature of the batch holds a number in each numeric field: no
    numeric column is made of nulls only. *)
Definition numbers_present (fs : list json) : bool :=
  existsb (fun f => holds Series.is_number (property_of f "mag")) fs
  && existsb (fun f => holds Series.is_number (coordinate_of f 0)) fs
  && existsb (fun f => holds Series.is_number (coordinate_of f 1)) fs
  && existsb (fun f => holds Series.is_number (coordinate_of f 2)) fs.

Definition nullable_record (r : RawEvent) : bool :=
  epoch_ms_or_null (raw_time r)
  && number_or_null (raw_magnitude r)
  && Series.is_str_or_null (raw_place r)
  && number_or_null (raw_longitude r)
  && number_or_null (raw_latitude r)
  && number_or_null (raw_depth_km r).

(** A batch of three features: the mocked one, one whose magnitude, depth
    and place are null, and one whose time, longitude and latitude are. *)
Definition batch_with_nulls : list json :=
  [ sample_feature JNull JNull;
    feature_of (JNum (int 1700000000000)) JNull JNull JNull JNull
      (JArr [JNum (dec 1425 10); JNum (dec (-65) 10); JNull]);
    feature_of JNull (JNum (dec 45 10)) (JStr (codes "Fiji region")) JNull JNull
      (JArr [JNull; JNull; JNum (int 600)]) ].

(** Two worlds for the examples: nothing stored and a disk that accepts
    writes, and the same with a disk that refuses them. *)
Definition empty_world : World :=
  {| base_dir := "/repo"; files := []; console := []; disk_error := None |}.

Definition read_only_world : World :=
  {| base_dir := "/repo"; files := []; console := [];
     disk_error := Some "Permission denied" |}.

(** A table of one row, for the examples. *)
Definition one_row_table : DataFrame :=
  {| index := 1; columns := [("magnitude", ObjCol [JNum (int 6)])] |}.

Definition other_table : DataFrame :=
  {| index := 2; columns := [("magnitude", ObjCol [JNum (int 3); JNum (int 4)])] |}.

(** The four lines the driver prints before it fetches. *)
Definition banner (base : string) : list string :=
  [ "=== Sistema de Extracción de Datos Sísmicos ===";
    String.append "Directorio base: " base;
    String.append "Destino de datos: " (String.append base "/datos");
    String.append nl "Obteniendo datos de terremotos..." ].

Definition no_data_line : string :=
  "No se pudieron obtener datos. Verifica tu conexión a internet.".

(** Renderings for the examples. *)
Definition show_nat (n : nat) : string :=
  match n with
  | O => "0"
  | S O => "1"
  | S (S O) => "2"
  | S (S (S O)) => "3"
  | _ => "many"
  end.

Definition show_time (t : option Z) : string :=
  match t with Some _ => "timestamp" | None => "NaT" end.

Definition show_info (df : DataFrame) : list string :=
  ["<class 'pandas.core.frame.DataFrame'>"].

(** A file name with no directory part: not empty, not ".", and without
    a separator.  For such a name [DATA_DIR / filename] is the name appended
    to the directory. *)
Definition plain_name (filename : string) : bool :=
  negb (String.eqb filename "") && negb (String.eqb filename ".")
  && negb (existsb (Ascii.eqb "/"%char) (list_ascii_of_string filename)).

(** A feature with the given magnitude, and one with the given depth. *)
Definition feature_with_magnitude (m : float) : json :=
  feature_of (JNum (int 0)) (JNum m) JNull JNull JNull
    (JArr [JNum (int 0); JNum (int 0); JNum (int 10)]).

Definition feature_with_depth (d : float) : json :=
  feature_of (JNum (int 0)) (JNum (int 4)) JNull JNull JNull
    (JArr [JNum (int 0); JNum (int 0); JNum d]).

(** The cells of a column, by dtype. *)
Definition cat_cells (r : result column) : list (option string) :=
  match r with Ok (CatCol l) => l | _ => [] end.

Definition label_cells (r : result column) : list string :=
  match r with Ok (LabelCol l) => l | _ => [] end.

Definition str_cells (r : result column) : list (option pystr) :=
  match r with Ok (StrCol l) => l | _ => [] end.

Definition time_cells (r : result column) : list (option Z) :=
  match r with Ok (TimeCol l) => l | _ => [] end.

Definition obj_cells (r : result column) : list json :=
  match r with Ok (ObjCol l) => l | _ => [] end.

(** The derived cells of row [i] of a table. *)
Definition severity_cell (df : DataFrame) (i : nat) : option (option string) :=
  nth_error (cat_cells (Frame.getcol df "severity")) i.

Definition depth_category_cell (df : DataFrame) (i : nat) : option (option string) :=
  nth_error (cat_cells (Frame.getcol df "depth_category")) i.

Definition region_cell (df : DataFrame) (i : nat) : option (option pystr) :=
  nth_error (str_cells (Frame.getcol df "region")) i.

Definition continent_cell (df : DataFrame) (i : nat) : option string :=
  nth_error (label_cells (Frame.getcol df "continent")) i.

Definition time_cell (df : DataFrame) (i : nat) : option (option Z) :=
  nth_error (time_cells (Frame.getcol df "time")) i.

Definition time_of_day_cell (df : DataFrame) (i : nat) : option string :=
  nth_error (label_cells (Frame.getcol df "time_of_day")) i.

Definition place_cell (df : DataFrame) (i : nat) : option json :=
  nth_error (obj_cells (Frame.getcol df "place")) i.

(* ================================================================== *)
(** * Properties *)

(** ** Comparisons of finite numbers *)

Lemma Qle_bool_false (a b : Q) : Qle_bool a b = false <-> (b < a)%Q.
Proof.
  split; intro H.
  - apply Qnot_le_lt. intro L. apply Qle_bool_iff in L. congruence.
  - destruct (Qle_bool a b) eqn:E; [| reflexivity].
    apply Qle_bool_iff in E. exfalso. apply (Qlt_not_le _ _ H E).
Qed.

(** Splits on every rational comparison in sight and turns the outcomes
    into facts for [lra]. *)
Ltac qcases :=
  repeat match goal with
    | H : context [Qle_bool ?a ?b] |- _ =>
        let E := fresh "E" in
        destruct (Qle_bool a b) eqn:E;
        [apply Qle_bool_iff in E | apply Qle_bool_false in E]
    | |- context [Qle_bool ?a ?b] =>
        let E := fresh "E" in
        destruct (Qle_bool a b) eqn:E;
        [apply Qle_bool_iff in E | apply Qle_bool_false in E]
    end.

Ltac qsolve :=
  unfold int, dec, inject_Z in *; simpl in *; qcases; simpl in *;
  try discriminate; try reflexivity; try (exfalso; lra); auto.

Ltac label_found :=
  match goal with
  | |- exists l, Some ?x = Some l /\ _ =>
      exists x; split; [reflexivity | simpl; tauto]
  end.

Ltac bins :=
  unfold severity, depth_category, Pandas.cut1, severity_bins, depth_bins,
    severity_labels, depth_labels, Pandas.searchsorted_left in *;
  unfold int, dec, inject_Z in *; simpl in *; qcases; simpl in *;
  repeat split; intros;
  repeat match goal with H : _ /\ _ |- _ => destruct H end;
  try discriminate; try reflexivity; try label_found;
  try (exfalso; lra); auto.

(* ------------------------------------------------------------------ *)
(** ** The continent classifier *)

Lemma get_continent_is_first_match (lat lon : float) :
  get_continent lat lon = first_match_spec lat lon.
Proof.
  unfold get_continent, first_match_spec, bounding_boxes, find, in_box; simpl.
  repeat match goal with
    | |- context [if ?c then _ else _] => destruct c
    end; reflexivity.
Qed.

Lemma box_labels_not_ocean (b : box) :
  In b bounding_boxes -> label b <> "Ocean".
Proof.
  unfold bounding_boxes; simpl.
  intros [H|[H|[H|[H|[H|[H|[]]]]]]]; subst b; simpl; discriminate.
Qed.

(** C1. [get_continent] is a total function of (latitude, longitude) whose
    value is one of the seven labels; it scans the boxes in the order North
    America, Africa, Europe, Asia, Australia, South America and answers
    with the first one that contains the point; it answers Ocean exactly
    when no box contains the point.  (36, 0) lies in the Africa and the
    Europe box and is classified Africa; (40, -100) is North America and
    (-80, 0) is Ocean. *)
Theorem get_continent_first_match_wins :
  (forall lat lon : float,
      In (get_continent lat lon) continents /\
      get_continent lat lon = first_match_spec lat lon /\
      (get_continent lat lon = "Ocean" <->
       forall b, In b bounding_boxes -> in_box lat lon b = false)) /\
  map label bounding_boxes ++ ["Ocean"] = continents /\
  (in_box (int 36) (int 0) (Box "Africa" (-20) 50 (-35) 37) = true /\
   in_box (int 36) (int 0) (Box "Europe" (-10) 40 35 70) = true /\
   get_continent (int 36) (int 0) = "Africa") /\
  get_continent (int 40) (int (-100)) = "North America" /\
  get_continent (int (-80)) (int 0) = "Ocean".
Proof.
  split; [| repeat split; reflexivity].
  intros lat lon. split; [| split].
  - unfold get_continent, continents.
    repeat match goal with
      | |- context [if ?c then _ else _] => destruct c
      end; simpl; tauto.
  - apply get_continent_is_first_match.
  - rewrite get_continent_is_first_match. unfold first_match_spec.
    destruct (find (in_box lat lon) bounding_boxes) as [b|] eqn:F.
    + apply find_some in F. destruct F as [Hin Hb]. split.
      * intro Hl. exfalso. exact (box_labels_not_ocean b Hin Hl).
      * intro Hall. rewrite (Hall b Hin) in Hb. discriminate.
    + split; [| reflexivity].
      intros _ b Hin. exact (find_none _ _ F b Hin).
Qed.

Lemma get_continent_first_match_wins_witness :
  in_box (int (-80)) (int 0) (Box "Africa" (-20) 50 (-35) 37) = false.
Proof.
  pose proof get_continent_first_match_wins as [H _].
  destruct (H (int (-80)) (int 0)) as [_ [_ Hocean]].
  apply (proj1 Hocean).
  - reflexivity.
  - simpl. tauto.
Defined.

(* ------------------------------------------------------------------ *)
(** ** Severity and depth category *)

(** C10. A magnitude outside (0, 10] has no severity and a depth outside
    (0, 700], zero and the negative depths included, has no depth
    category; conversely a value that received a label lies inside the
    range of the bins. *)
Theorem out_of_range_is_missing :
  (forall m : float,
      le m (int 0) = true \/ lt (int 10) m = true -> severity m = None) /\
  (forall d : float,
      le d (int 0) = true \/ lt (int 700) d = true -> depth_category d = None) /\
  (forall (m : float) (l : string),
      severity m = Some l -> lt (int 0) m = true /\ le m (int 10) = true) /\
  (forall (d : float) (l : string),
      depth_category d = Some l -> lt (int 0) d = true /\ le d (int 700) = true).
Proof.
  split; [| split; [| split]].
  - intros [q| | |] [H|H]; try discriminate; try reflexivity; bins.
  - intros [q| | |] [H|H]; try discriminate; try reflexivity; bins.
  - intros [q| | |] l H; try discriminate; bins.
  - intros [q| | |] l H; try discriminate; bins.
Qed.

Lemma out_of_range_is_missing_witness :
  severity (int 0) = None /\ severity (int 11) = None /\
  depth_category (int 0) = None /\ depth_category (dec (-5) 2) = None /\
  depth_category (int 701) = None.
Proof.
  pose proof out_of_range_is_missing as [Hm [Hd _]].
  split; [| split; [| split; [| split]]].
  - apply Hm. left. reflexivity.
  - apply Hm. right. reflexivity.
  - apply Hd. left. reflexivity.
  - apply Hd. left. reflexivity.
  - apply Hd. right. reflexivity.
Defined.

(* ------------------------------------------------------------------ *)
(** ** Region extraction *)

Module RegexFacts.
Import Regex.

Lemma comma_head (c : N) (s : pystr) :
  has_comma (c :: s) = (c =? comma)%N || has_comma s.
Proof. unfold has_comma; simpl. now rewrite N.eqb_sym. Qed.

Lemma at_end_comma (c : N) (s : pystr) :
  (c =? comma)%N = true -> at_end (c :: s) = false.
Proof.
  intro H. apply N.eqb_eq in H. subst c. destruct s; reflexivity.
Qed.

Lemma star_dollar_no_comma (s : pystr) :
  has_comma s = false -> star_dollar s = Some s.
Proof.
  induction s as [|c rest IH]; [reflexivity |].
  rewrite comma_head. intro H. apply orb_false_elim in H as [Hc Hr].
  simpl. rewrite Hc, (IH Hr). reflexivity.
Qed.

Lemma star_dollar_comma (s : pystr) :
  has_comma s = true -> star_dollar s = None.
Proof.
  induction s as [|c rest IH]; [discriminate |].
  rewrite comma_head. intro H.
  cbn [star_dollar]. destruct (c =? comma)%N eqn:Hc.
  - now rewrite (at_end_comma c rest Hc).
  - simpl in H. rewrite (IH H).
    destruct rest as [|c' rest']; [discriminate | reflexivity].
Qed.

Lemma plus_dollar_no_comma (c : N) (s : pystr) :
  has_comma (c :: s) = false -> plus_dollar (c :: s) = Some (c :: s).
Proof.
  rewrite comma_head. intro H. apply orb_false_elim in H as [Hc Hr].
  simpl. now rewrite Hc, (star_dollar_no_comma s Hr).
Qed.

Lemma plus_dollar_comma (s : pystr) :
  has_comma s = true -> plus_dollar s = None.
Proof.
  destruct s as [|c rest]; [discriminate |].
  rewrite comma_head. intro H. simpl.
  destruct (c =? comma)%N; [reflexivity |].
  simpl in H. now rewrite (star_dollar_comma rest H).
Qed.

Lemma spaces_then_comma (s : pystr) :
  has_comma s = true -> spaces_then s = None.
Proof.
  induction s as [|c rest IH]; [discriminate |].
  intro H. cbn [spaces_then]. rewrite (plus_dollar_comma (c :: rest) H).
  destruct (is_space c) eqn:S; [| reflexivity].
  rewrite comma_head in H.
  destruct (c =? comma)%N eqn:Hc.
  - (* the comma itself is not whitespace *)
    apply N.eqb_eq in Hc. subst c. discriminate S.
  - simpl in H. now rewrite (IH H).
Qed.

Lemma lstrip_keep_one_none (s : pystr) :
  lstrip_keep_one s = None -> s = [].
Proof.
  destruct s as [|c rest]; [reflexivity |]. simpl.
  destruct (is_space c); [| discriminate].
  destruct (lstrip_keep_one rest); discriminate.
Qed.

Lemma spaces_then_no_comma (s : pystr) :
  has_comma s = false -> spaces_then s = lstrip_keep_one s.
Proof.
  induction s as [|c rest IH]; [reflexivity |].
  intro H. cbn [spaces_then lstrip_keep_one].
  rewrite (plus_dollar_no_comma c rest H).
  rewrite comma_head in H. apply orb_false_elim in H as [_ Hr].
  rewrite (IH Hr).
  destruct (is_space c); [| reflexivity].
  destruct (lstrip_keep_one rest) eqn:E; [reflexivity |].
  now rewrite (lstrip_keep_one_none rest E).
Qed.

Lemma search_no_comma (s : pystr) :
  has_comma s = false -> search s = None.
Proof.
  induction s as [|c rest IH]; [reflexivity |].
  rewrite comma_head. intro H. apply orb_false_elim in H as [Hc Hr].
  cbn [search match_here]. rewrite Hc. exact (IH Hr).
Qed.

Lemma search_last_comma (pre rest : pystr) :
  has_comma rest = false ->
  search (pre ++ comma :: rest) = spaces_then rest.
Proof.
  intro Hr. induction pre as [|c p IH].
  - cbn [app search match_here]. rewrite N.eqb_refl.
    destruct (spaces_then rest); [reflexivity |].
    exact (search_no_comma rest Hr).
  - cbn [app search match_here]. rewrite IH.
    assert (Hc : has_comma (p ++ comma :: rest) = true).
    { unfold has_comma. rewrite existsb_app. cbn. apply orb_true_r. }
    destruct (c =? comma)%N; [| reflexivity].
    now rewrite (spaces_then_comma _ Hc).
Qed.

Lemma after_last_comma_some (s r : pystr) :
  after_last_comma s = Some r ->
  exists pre, s = pre ++ comma :: r /\ has_comma r = false.
Proof.
  revert r. induction s as [|c rest IH]; [discriminate |].
  intros r. cbn [after_last_comma].
  destruct (after_last_comma rest) as [r'|] eqn:E.
  - intros [= <-]. destruct (IH r' eq_refl) as [pre [-> Hno]].
    exists (c :: pre). split; [reflexivity | exact Hno].
  - destruct (c =? comma)%N eqn:Hc; [| discriminate].
    intros [= <-]. apply N.eqb_eq in Hc. subst c.
    exists []. split; [reflexivity |].
    clear IH. induction rest as [|d t IHt]; [reflexivity |].
    cbn [after_last_comma] in E. rewrite comma_head.
    destruct (after_last_comma t); [discriminate |].
    destruct (d =? comma)%N; [discriminate |]. simpl. now apply IHt.
Qed.

Lemma after_last_comma_none (s : pystr) :
  after_last_comma s = None -> has_comma s = false.
Proof.
  induction s as [|d t IHt]; [reflexivity |].
  cbn [after_last_comma]. rewrite comma_head.
  destruct (after_last_comma t); [discriminate |].
  destruct (d =? comma)%N; [discriminate |]. simpl. now apply IHt.
Qed.

Lemma spaces_have_no_comma (ws : pystr) :
  forallb is_space ws = true -> has_comma ws = false.
Proof.
  induction ws as [|c t IH]; [reflexivity |].
  rewrite comma_head. cbn [forallb]. intro H.
  apply andb_true_iff in H as [Hc Ht]. rewrite (IH Ht), orb_false_r.
  destruct (c =? comma)%N eqn:E; [| reflexivity].
  apply N.eqb_eq in E. subst c. discriminate Hc.
Qed.

Lemma lstrip_keep_one_token (ws : pystr) (c : N) (t : pystr) :
  forallb is_space ws = true -> is_space c = false ->
  lstrip_keep_one (ws ++ c :: t) = Some (c :: t).
Proof.
  intros Hws Hc. induction ws as [|w ws' IH].
  - simpl. now rewrite Hc.
  - simpl in Hws. apply andb_true_iff in Hws as [Hw Hws'].
    cbn [app lstrip_keep_one]. now rewrite Hw, (IH Hws').
Qed.

End RegexFacts.

(** C8 (as amended). The region is what follows the final comma of the
    place once leading whitespace is skipped (the pattern keeps at least
    one character, so trailing text made of whitespace only yields its last
    character); it is missing when the place has no comma and when nothing
    follows the final comma.  "10km SE of Testville, Nowhereland" yields
    "Nowhereland". *)
Theorem region_is_last_token :
  (forall place : pystr,
      region place = match after_last_comma place with
                     | Some rest => lstrip_keep_one rest
                     | None => None
                     end) /\
  (forall place : pystr, has_comma place = false -> region place = None) /\
  (forall pre : pystr, region (pre ++ [Regex.comma]) = None) /\
  (forall (pre ws : pystr) (c : N) (t : pystr),
      forallb Regex.is_space ws = true ->
      Regex.is_space c = false ->
      has_comma (c :: t) = false ->
      region (pre ++ Regex.comma :: ws ++ c :: t) = Some (c :: t)) /\
  region (codes "10km SE of Testville, Nowhereland") = Some (codes "Nowhereland").
Proof.
  split; [| split; [| split; [| split]]].
  - intro place. unfold region.
    destruct (after_last_comma place) as [rest|] eqn:E.
    + destruct (RegexFacts.after_last_comma_some place rest E) as [pre [-> Hno]].
      rewrite (RegexFacts.search_last_comma pre rest Hno).
      exact (RegexFacts.spaces_then_no_comma rest Hno).
    + exact (RegexFacts.search_no_comma place
               (RegexFacts.after_last_comma_none place E)).
  - intros place H. exact (RegexFacts.search_no_comma place H).
  - intro pre. unfold region.
    now rewrite (RegexFacts.search_last_comma pre [] eq_refl).
  - intros pre ws c t Hws Hc Hno. unfold region.
    assert (H : has_comma (ws ++ c :: t) = false).
    { unfold has_comma in *. rewrite existsb_app.
      fold (has_comma ws). rewrite (RegexFacts.spaces_have_no_comma ws Hws).
      exact Hno. }
    rewrite (RegexFacts.search_last_comma pre (ws ++ c :: t) H).
    rewrite (RegexFacts.spaces_then_no_comma (ws ++ c :: t) H).
    exact (RegexFacts.lstrip_keep_one_token ws c t Hws Hc).
  - reflexivity.
Qed.

Lemma region_is_last_token_witness :
  region (codes "Fiji") = None /\
  region (codes "south of the Fiji Islands,  Tonga") = Some (codes "Tonga").
Proof.
  pose proof region_is_last_token as [_ [Hnone [_ [Htok _]]]].
  split.
  - apply Hnone. reflexivity.
  - apply (Htok (codes "south of the Fiji Islands") (codes "  ")
             84%N (codes "onga")); reflexivity.
Defined.

(** C8 as first stated does not hold: after the final comma of
    "10km SE of Testville, Nowhereland" comes " Nowhereland", with its
    leading blank, while the region is "Nowhereland"; and "Tonga," has a
    comma, with the empty text after it, yet its region is missing. *)
Lemma region_is_not_text_after_comma :
  (after_last_comma (codes "10km SE of Testville, Nowhereland")
     = Some (codes " Nowhereland") /\
   region (codes "10km SE of Testville, Nowhereland")
     <> after_last_comma (codes "10km SE of Testville, Nowhereland")) /\
  (has_comma (codes "Tonga,") = true /\
   after_last_comma (codes "Tonga,") = Some [] /\
   region (codes "Tonga,") = None).
Proof.
  repeat split; discriminate.
Qed.

(* ------------------------------------------------------------------ *)
(** ** The loop over the features *)

Lemma bind_ok {A B : Type} (m : result A) (k : A -> result B) (b : B) :
  bind m k = Ok b -> exists a, m = Ok a /\ k a = Ok b.
Proof.
  destruct m as [a| |]; simpl; try discriminate.
  intro H. exists a. split; [reflexivity | exact H].
Qed.

Lemma bind_raise {A B : Type} (m : result A) (k : A -> result B) (e : exn) :
  bind m k = Raise e -> m = Raise e \/ exists a, m = Ok a /\ k a = Raise e.
Proof.
  destruct m as [a| |]; simpl; try discriminate.
  - intro H. right. exists a. split; [reflexivity | exact H].
  - intros [= ->]. left. reflexivity.
Qed.

Lemma getitem_modelled (v : json) (k : subscript) : getitem v k <> Unmodelled.
Proof.
  destruct v, k; simpl; try discriminate.
  - destruct (nth_error s n); discriminate.
  - destruct (nth_error l n); discriminate.
  - destruct (dict_get kv k); discriminate.
Qed.

Lemma getitem_raise (v : json) (k : subscript) (e : exn) :
  getitem v k = Raise e -> lookup_error e = true.
Proof.
  destruct v, k; simpl; try (intros [= <-]; reflexivity).
  - destruct (nth_error s n); [discriminate | intros [= <-]; reflexivity].
  - destruct (nth_error l n); [discriminate | intros [= <-]; reflexivity].
  - destruct (dict_get kv k); [discriminate | intros [= <-]; reflexivity].
Qed.

Lemma getitem_key_ok (v : json) (k : string) (x : json) :
  getitem v (Key k) = Ok x -> member v k = Some x.
Proof.
  destruct v; simpl; try discriminate.
  destruct (dict_get kv k); [intros [= ->]; reflexivity | discriminate].
Qed.

Lemma getitem_idx_ok (v : json) (n : nat) (x : json) :
  getitem v (Idx n) = Ok x ->
  match v with
  | JArr l => (n < List.length l)%nat
  | JStr _ => True
  | _ => False
  end.
Proof.
  destruct v; simpl; try discriminate; [trivial |].
  destruct (nth_error l n) eqn:E; [| discriminate].
  intros _. apply nth_error_Some. congruence.
Qed.

(** Peels the binds of a successful [record_of] into its lookups. *)
Ltac peel H :=
  repeat (let a := fresh "v" in
          let Ha := fresh "G" in
          apply bind_ok in H as [a [Ha H]]).

Lemma record_of_ok_has_keys (f : json) (r : RawEvent) :
  record_of f = Ok r -> lacks_required f = false.
Proof.
  unfold record_of. intro H. peel H. clear H.
  repeat match goal with
    | G : getitem _ (Key _) = Ok _ |- _ => apply getitem_key_ok in G
    end.
  repeat match goal with
    | G1 : ?a = Some ?x, G2 : ?a = Some ?y |- _ =>
        assert (y = x) by congruence; subst y; clear G2
    end.
  repeat match goal with
    | G : getitem _ (Idx _) = Ok _ |- _ => apply getitem_idx_ok in G
    end.
  unfold lacks_required, coordinates_of, property_keys, has_key.
  cbn [existsb].
  repeat match goal with
    | G : member _ _ = Some _ |- _ => rewrite G; clear G
    end.
  cbn.
  match goal with
  | |- match ?c with _ => _ end = false =>
      destruct c; try contradiction; [reflexivity |]
  end.
  apply Nat.leb_gt. lia.
Qed.

Lemma record_of_modelled (f : json) : record_of f <> Unmodelled.
Proof.
  unfold record_of.
  repeat match goal with
    | |- bind (getitem ?v ?k) _ <> _ =>
        let E := fresh "E" in
        destruct (getitem v k) eqn:E; cbn [bind];
        [ | discriminate | exfalso; exact (getitem_modelled v k E) ]
    end.
  discriminate.
Qed.

Lemma record_of_raise (f : json) (e : exn) :
  record_of f = Raise e -> lookup_error e = true.
Proof.
  unfold record_of.
  repeat match goal with
    | |- bind (getitem ?v ?k) _ = _ -> _ =>
        let E := fresh "E" in
        destruct (getitem v k) eqn:E; cbn [bind];
        [ | intros [= <-]; exact (getitem_raise v k _ E) | discriminate ]
    end.
  discriminate.
Qed.

(** A loop whose body never leaves the model either builds the whole list
    or raises what its first failing iteration raises. *)
Lemma mapM_outcome {A B : Type} (f : A -> result B) (l : list A) :
  (forall a, f a <> Unmodelled) ->
  (exists bs, mapM f l = Ok bs /\ Forall2 (fun a b => f a = Ok b) l bs) \/
  (exists a e, In a l /\ f a = Raise e /\ mapM f l = Raise e).
Proof.
  intro Hf. induction l as [|a rest IH].
  - left. exists []. split; [reflexivity | constructor].
  - cbn [mapM]. destruct (f a) as [b|e|] eqn:Ea.
    + destruct IH as [[bs [Hbs Hall]] | [a' [e [Hin [Ha' Hr]]]]].
      * left. exists (b :: bs). cbn [bind]. rewrite Hbs. cbn [bind].
        split; [reflexivity | constructor; assumption].
      * right. exists a', e. cbn [bind]. rewrite Hr.
        split; [right; exact Hin | split; [exact Ha' | reflexivity]].
    + right. exists a, e.
      split; [left; reflexivity | split; [exact Ea | reflexivity]].
    + exfalso. exact (Hf a Ea).
Qed.

Lemma Forall2_pick {A B : Type} (P : A -> B -> Prop) (l : list A) (bs : list B) :
  Forall2 P l bs -> forall a, In a l -> exists b, In b bs /\ P a b.
Proof.
  induction 1 as [|x y l' bs' Hxy _ IH]; intros a Hin; [contradiction |].
  destruct Hin as [<- | Hin].
  - exists y. split; [left; reflexivity | exact Hxy].
  - destruct (IH a Hin) as [b [Hb Hab]]. exists b. split; [right |]; assumption.
Qed.

Lemma collection_is_truthy (kv : list (string * json)) (fs : json) :
  dict_get kv "features" = Some fs -> truthy (JObj kv) = true.
Proof. destruct kv; [discriminate | reflexivity]. Qed.

(** C6. When some feature of the collection lacks a required key
    ([properties], one of its keys time, mag, place, type, status,
    [geometry], its [coordinates], or one of the three elements of the
    array), the transformation raises (a KeyError, an IndexError or a
    TypeError, that of the first such feature) whatever the other features
    are: no table is returned. *)
Theorem malformed_feature_aborts_batch
  (normal : nat -> float) (kv : list (string * json)) (fs : list json) :
  dict_get kv "features" = Some (JArr fs) ->
  existsb lacks_required fs = true ->
  exists e, process_data normal (JObj kv) = Raise e /\ lookup_error e = true.
Proof.
  intros Hfs Hbad. unfold process_data.
  rewrite (collection_is_truthy kv (JArr fs) Hfs). cbn [negb getitem].
  rewrite Hfs. cbn [bind iter].
  destruct (mapM_outcome record_of fs record_of_modelled)
    as [[recs [_ Hall]] | [f [e [_ [Hf Hr]]]]].
  - exfalso. apply existsb_exists in Hbad as [f [Hin Hlack]].
    destruct (Forall2_pick _ fs recs Hall f Hin) as [r [_ Hr]].
    rewrite (record_of_ok_has_keys f r Hr) in Hlack. discriminate.
  - exists e. rewrite Hr. split; [reflexivity | exact (record_of_raise f e Hf)].
Qed.

(* ------------------------------------------------------------------ *)
(** ** Reading the columns of a batch *)

Lemma member_getitem (v : json) (k : string) (x : json) :
  member v k = Some x -> getitem v (Key k) = Ok x.
Proof.
  destruct v; simpl; try discriminate. now intros ->.
Qed.

Lemma holds_some (P : json -> bool) (o : option json) :
  holds P o = true -> exists v, o = Some v /\ P v = true.
Proof.
  destruct o as [v|]; simpl; [| discriminate].
  intro H. exists v. split; [reflexivity | exact H].
Qed.

Lemma forallb_column {A : Type} (P : A -> bool) (Q : json -> bool)
  (g : A -> json) (l : list A) :
  (forall a, P a = true -> Q (g a) = true) ->
  forallb P l = true -> forallb Q (map g l) = true.
Proof.
  intros HPQ H. induction l as [|a rest IH]; [reflexivity |].
  cbn [forallb map] in *. apply andb_true_iff in H as [Ha Hr].
  now rewrite (HPQ a Ha), (IH Hr).
Qed.

Lemma str_extract_typed (l : list json) :
  forallb Series.is_str_or_null l = true ->
  Series.str_extract (ObjCol l) = Ok (map Series.extract_cell l).
Proof.
  intro H. unfold Series.str_extract. now rewrite H.
Qed.

(** C4 as first stated does not hold: the collection with an empty
    features list has every feature well formed, and the transformer
    raises KeyError('time') instead of returning a table without rows; and
    a feature that has all the required keys, with a number where the place
    should be, makes it raise AttributeError. *)
Lemma required_keys_do_not_give_a_table :
  (forallb has_required [] = true
   /\ process_data constant_normal (collection [])
      = Raise (KeyError (Key "time")))
  /\ (forallb has_required [numeric_place_feature] = true
      /\ process_data constant_normal (collection [numeric_place_feature])
         = Raise AttributeError).
Proof.
  repeat split.
Qed.

(* ------------------------------------------------------------------ *)
(** ** End to end on the mocked response *)

(** C9. On a collection with the single feature mag = 6.0,
    place = "10km SE of Testville, Nowhereland", coordinates
    [-100, 40, 15], time = epoch 0 (type and status present, of any
    value), the transformer returns a table of one row with severity fuerte,
    depth category superficial, region Nowhereland and continent North
    America. *)
Theorem mocked_response_row (normal : nat -> float) (ty st : json) :
  exists df,
    process_data normal (collection [sample_feature ty st]) = Ok df
    /\ Frame.len df = 1%nat
    /\ Frame.getcol df "severity" = Ok (CatCol [Some "fuerte"])
    /\ Frame.getcol df "depth_category" = Ok (CatCol [Some "superficial"])
    /\ Frame.getcol df "region" = Ok (StrCol [Some (codes "Nowhereland")])
    /\ Frame.getcol df "continent" = Ok (LabelCol ["North America"])
    /\ Frame.getcol df "time" = Ok (TimeCol [Some 0%Z])
    /\ map fst (columns df) = enriched_columns.
Proof.
  eexists. split; [reflexivity |]. repeat split.
Qed.

(* ------------------------------------------------------------------ *)
(** ** Empty input *)

Lemma null_input_gives_empty_table (normal : nat -> float) :
  process_data normal JNull = Ok Frame.empty_frame
  /\ process_data normal (JObj []) = Ok Frame.empty_frame
  /\ Frame.empty Frame.empty_frame = true.
Proof. repeat split. Qed.

Lemma writer_skips_empty_table
  (str_exn : exn -> string) (df : DataFrame) (filename : string) (w : World) :
  Frame.empty df = true ->
  files (save_to_csv str_exn df filename w) = files w
  /\ console (save_to_csv str_exn df filename w)
     = console w ++ ["No hay datos para guardar"].
Proof.
  intro H. unfold save_to_csv. rewrite H. split; reflexivity.
Qed.

(** C5, evaluated on the code. Null input gives the empty table and the
    writer, given an empty table, writes nothing and prints its "no data"
    line; but on a feature collection with no features the transformer does
    not return: it raises KeyError('time') at line 57, the frame built from
    an empty list having no columns. *)
Theorem empty_collection_raises
  (normal : nat -> float) (str_exn : exn -> string)
  (filename : string) (w : World) :
  process_data normal (collection []) = Raise (KeyError (Key "time"))
  /\ process_data normal JNull = Ok Frame.empty_frame
  /\ files (save_to_csv str_exn Frame.empty_frame filename w) = files w
  /\ console (save_to_csv str_exn Frame.empty_frame filename w)
     = console w ++ ["No hay datos para guardar"].
Proof.
  split; [reflexivity |]. split; [reflexivity |].
  exact (writer_skips_empty_table str_exn Frame.empty_frame filename w eq_refl).
Qed.

Lemma malformed_feature_aborts_batch_witness :
  exists e,
    process_data constant_normal (collection one_bad_among_three) = Raise e
    /\ lookup_error e = true.
Proof.
  apply (malformed_feature_aborts_batch constant_normal
           [("type", JStr (codes "FeatureCollection"));
            ("features", JArr one_bad_among_three)]
           one_bad_among_three).
  - reflexivity.
  - reflexivity.
Defined.

(* ------------------------------------------------------------------ *)
(** ** The fetcher *)

Lemma raise_for_status_error (r : Requests.response) :
  error_status (Requests.status_code r) ->
  Requests.raise_for_status r = Raise (HTTPError (Requests.status_code r)).
Proof.
  unfold error_status, Requests.raise_for_status. intros [Hlo Hhi].
  apply Nat.leb_le in Hlo. apply Nat.ltb_lt in Hhi.
  now rewrite Hlo, Hhi.
Qed.

Lemma raise_for_status_other (r : Requests.response) :
  ~ error_status (Requests.status_code r) ->
  Requests.raise_for_status r = Ok tt.
Proof.
  unfold error_status, Requests.raise_for_status. intro H.
  destruct (400 <=? Requests.status_code r)%nat eqn:Hlo; [| reflexivity].
  destruct (Requests.status_code r <? 600)%nat eqn:Hhi; [| reflexivity].
  exfalso. apply H.
  apply Nat.leb_le in Hlo. apply Nat.ltb_lt in Hhi. lia.
Qed.

(** C7 (as amended). The fetcher propagates no exception.  When the
    request fails with a connection error or a timeout, or the response
    has a status from 400 to 599, it prints one "Error al obtener datos"
    line and returns None; when the response has any other status, 2xx
    or not, and a JSON body, it returns the parsed body and prints
    nothing. *)
Theorem fetcher_outcomes (str_exn : exn -> string) :
  (forall net e, fst (fetch_earthquake_data str_exn net) <> Raise e)
  /\ (forall msg,
        fetch_earthquake_data str_exn (Requests.Unreachable msg)
        = (Ok JNull,
           [String.append "Error al obtener datos: "
              (str_exn (ConnectionError msg))]))
  /\ (forall msg,
        fetch_earthquake_data str_exn (Requests.NoAnswerInTime msg)
        = (Ok JNull,
           [String.append "Error al obtener datos: " (str_exn (Timeout msg))]))
  /\ (forall status body,
        error_status status ->
        fetch_earthquake_data str_exn
          (Requests.Answers
             {| Requests.status_code := status; Requests.body := body |})
        = (Ok JNull,
           [String.append "Error al obtener datos: "
              (str_exn (HTTPError status))]))
  /\ (forall status data,
        ~ error_status status ->
        fetch_earthquake_data str_exn
          (Requests.Answers
             {| Requests.status_code := status; Requests.body := Some data |})
        = (Ok data, [])).
Proof.
  split; [| split; [| split; [| split]]].
  - intros net e. unfold fetch_earthquake_data.
    destruct net as [msg|msg|r]; cbn [Requests.get bind];
      try (cbn; discriminate).
    destruct (Requests.raise_for_status r) as [[]|e'|] eqn:Hs; cbn [bind].
    + unfold Requests.json_body. destruct (Requests.body r); cbn; discriminate.
    + unfold Requests.raise_for_status in Hs.
      destruct ((400 <=? Requests.status_code r)%nat
                && (Requests.status_code r <? 600)%nat); [| discriminate].
      injection Hs as <-. cbn. discriminate.
    + cbn. discriminate.
  - reflexivity.
  - reflexivity.
  - intros status body H. unfold fetch_earthquake_data. cbn [Requests.get bind].
    rewrite raise_for_status_error by exact H. reflexivity.
  - intros status data H. unfold fetch_earthquake_data. cbn [Requests.get bind].
    rewrite raise_for_status_other by exact H. reflexivity.
Qed.

Lemma fetcher_outcomes_witness :
  fetch_earthquake_data class_name
    (Requests.Answers
       {| Requests.status_code := 503; Requests.body := None |})
  = (Ok JNull, ["Error al obtener datos: HTTPError"])
  /\ fetch_earthquake_data class_name
       (Requests.Answers
          {| Requests.status_code := 200;
             Requests.body := Some (collection two_features) |})
     = (Ok (collection two_features), []).
Proof.
  pose proof (fetcher_outcomes class_name) as [_ [_ [_ [Herr Hok]]]].
  split.
  - apply (Herr 503%nat None). unfold error_status. lia.
  - apply (Hok 200%nat (collection two_features)). unfold error_status. lia.
Defined.

(** C7 as first stated does not hold: a response with status 300, which
    is not a 2xx status, and a JSON body is not turned into None; its body
    is returned and nothing is printed. *)
Lemma status_300_is_not_caught :
  fetch_earthquake_data class_name
    (Requests.Answers
       {| Requests.status_code := 300;
          Requests.body := Some (collection []) |})
  = (Ok (collection []), [])
  /\ collection [] <> JNull.
Proof.
  split; [reflexivity | discriminate].
Qed.

(* ================================================================== *)
(** * Further properties of the code *)

(** ** The continent classifier: which points each label covers *)

Lemma le_int_int (a b : Z) (x : float) :
  le (int a) x = true -> le x (int b) = true -> (a <= b)%Z.
Proof.
  destruct x as [q| | |]; simpl; try discriminate.
  intros H1 H2. apply Qle_bool_iff in H1, H2.
  rewrite Zle_Qle. exact (Qle_trans _ _ _ H1 H2).
Qed.

Lemma le_lower_weaken (a a' : Z) (x : float) :
  le (int a) x = true -> (a' <= a)%Z -> le (int a') x = true.
Proof.
  destruct x as [q| | |]; simpl; try discriminate; [| reflexivity].
  intros H1 H2. apply Qle_bool_iff in H1. apply Qle_bool_iff.
  rewrite Zle_Qle in H2. exact (Qle_trans _ _ _ H2 H1).
Qed.

Lemma le_upper_weaken (b b' : Z) (x : float) :
  le x (int b) = true -> (b <= b')%Z -> le x (int b') = true.
Proof.
  destruct x as [q| | |]; simpl; try discriminate; [| reflexivity].
  intros H1 H2. apply Qle_bool_iff in H1. apply Qle_bool_iff.
  rewrite Zle_Qle in H2. exact (Qle_trans _ _ _ H1 H2).
Qed.

Lemma above_when_not_le (a b : Z) (x : float) :
  le (int a) x = true -> le x (int b) = false -> lt (int b) x = true.
Proof.
  destruct x as [q| | |]; simpl; try discriminate; [| reflexivity].
  intros _ H. now rewrite H.
Qed.

Lemma lt_not_le (b : Z) (x : float) :
  lt (int b) x = true -> le x (int b) = false.
Proof.
  destruct x as [q| | |]; simpl; try discriminate; [| reflexivity].
  intro H. now apply negb_true_iff in H.
Qed.

Lemma in_box_true (lat lon : float) (b : box) :
  in_box lat lon b = true ->
  le (int (lon_min b)) lon = true /\ le lon (int (lon_max b)) = true
  /\ le (int (lat_min b)) lat = true /\ le lat (int (lat_max b)) = true.
Proof.
  unfold in_box. intro H.
  repeat (apply andb_true_iff in H as [H ?]). tauto.
Qed.

(** Two boxes that share no longitude, or no latitude, share no point. *)
Lemma boxes_apart (lat lon : float) (b1 b2 : box) :
  (lon_max b1 < lon_min b2 \/ lon_max b2 < lon_min b1
   \/ lat_max b1 < lat_min b2 \/ lat_max b2 < lat_min b1)%Z ->
  in_box lat lon b1 = true -> in_box lat lon b2 = true -> False.
Proof.
  intros Hapart H1 H2.
  apply in_box_true in H1 as [A1 [B1 [C1 D1]]].
  apply in_box_true in H2 as [A2 [B2 [C2 D2]]].
  pose proof (le_int_int _ _ _ A1 B2).
  pose proof (le_int_int _ _ _ A2 B1).
  pose proof (le_int_int _ _ _ C1 D2).
  pose proof (le_int_int _ _ _ C2 D1).
  lia.
Qed.

Lemma get_continent_by_boxes (lat lon : float) :
  get_continent lat lon =
  if in_box lat lon box_north_america then "North America"
  else if in_box lat lon box_africa then "Africa"
  else if in_box lat lon box_europe then "Europe"
  else if in_box lat lon box_asia then "Asia"
  else if in_box lat lon box_australia then "Australia"
  else if in_box lat lon box_south_america then "South America"
  else "Ocean".
Proof.
  rewrite get_continent_is_first_match.
  unfold first_match_spec, bounding_boxes, box_north_america, box_africa,
    box_europe, box_asia, box_australia, box_south_america.
  cbn [find].
  repeat match goal with
    | |- context [if ?c then _ else _] => destruct c
    end; reflexivity.
Qed.

Lemma europe_above_africa (lat lon : float) :
  in_box lat lon box_europe = true ->
  in_box lat lon box_africa = false <-> lt (int 37) lat = true.
Proof.
  intro He. apply in_box_true in He as [A [B [C D]]].
  cbn [lon_min lon_max lat_min lat_max box_europe] in A, B, C, D.
  assert (A' : le (int (-20)) lon = true)
    by (apply (le_lower_weaken (-10)); [exact A | lia]).
  assert (B' : le lon (int 50) = true)
    by (apply (le_upper_weaken 40); [exact B | lia]).
  assert (C' : le (int (-35)) lat = true)
    by (apply (le_lower_weaken 35); [exact C | lia]).
  unfold in_box, box_africa. cbn [lon_min lon_max lat_min lat_max].
  rewrite A', B', C'. cbn [andb]. split.
  - intro H. exact (above_when_not_le 35 37 lat C H).
  - apply lt_not_le.
Qed.

(** Closes a goal whose hypotheses put one point in two boxes that lie
    apart. *)
Ltac two_boxes :=
  match goal with
  | H1 : in_box ?lat ?lon ?b1 = true, H2 : in_box ?lat ?lon ?b2 = true |- _ =>
      exfalso; apply (boxes_apart lat lon b1 b2); [cbn; lia | exact H1 | exact H2]
  end.

Ltac region_case :=
  split; intro;
  repeat match goal with H : _ /\ _ |- _ => destruct H end;
  try reflexivity; try discriminate; try congruence; try two_boxes.

(** X1. Each label is decided by its own box alone, except Europe: the
    Africa box, tested first, takes the part of the Europe box up to
    latitude 37, so that Europe is answered exactly for longitudes in
    [-10, 40] and latitudes in (37, 70]. *)
Theorem get_continent_regions (lat lon : float) :
  (get_continent lat lon = "North America"
   <-> in_box lat lon box_north_america = true)
  /\ (get_continent lat lon = "Africa" <-> in_box lat lon box_africa = true)
  /\ (get_continent lat lon = "Europe"
      <-> in_box lat lon box_europe = true /\ lt (int 37) lat = true)
  /\ (get_continent lat lon = "Asia" <-> in_box lat lon box_asia = true)
  /\ (get_continent lat lon = "Australia"
      <-> in_box lat lon box_australia = true)
  /\ (get_continent lat lon = "South America"
      <-> in_box lat lon box_south_america = true).
Proof.
  rewrite get_continent_by_boxes.
  destruct (in_box lat lon box_north_america) eqn:E1.
  { repeat (split; [region_case |]); region_case. }
  destruct (in_box lat lon box_africa) eqn:E2.
  { repeat (split; [region_case |]); try region_case.
    all: try (exfalso;
              match goal with
              | He : in_box ?y ?x box_europe = true, Hl : lt _ ?y = true |- _ =>
                  apply (europe_above_africa y x He) in Hl; congruence
              end). }
  destruct (in_box lat lon box_europe) eqn:E3.
  { repeat (split; [region_case |]); try region_case.
    all: exact (proj1 (europe_above_africa lat lon E3) E2). }
  destruct (in_box lat lon box_asia) eqn:E4.
  { repeat (split; [region_case |]); region_case. }
  destruct (in_box lat lon box_australia) eqn:E5.
  { repeat (split; [region_case |]); region_case. }
  destruct (in_box lat lon box_south_america) eqn:E6.
  { repeat (split; [region_case |]); region_case. }
  repeat (split; [region_case |]); region_case.
Qed.

Lemma lt_le_int (a b : Z) (x : float) :
  lt (int a) x = true -> le x (int b) = true -> (a < b)%Z.
Proof.
  destruct x as [q| | |]; simpl; try discriminate.
  intros H1 H2. apply negb_true_iff, Qle_bool_false in H1.
  apply Qle_bool_iff in H2. rewrite Zlt_Qlt.
  exact (Qlt_le_trans _ _ _ H1 H2).
Qed.

Lemma le_lt_int (a b : Z) (x : float) :
  le (int a) x = true -> lt x (int b) = true -> (a < b)%Z.
Proof.
  destruct x as [q| | |]; simpl; try discriminate.
  intros H1 H2. apply negb_true_iff, Qle_bool_false in H2.
  apply Qle_bool_iff in H1. rewrite Zlt_Qlt.
  exact (Qle_lt_trans _ _ _ H1 H2).
Qed.

Lemma isna_not_le (x y : float) :
  isna x = true -> le x y = false /\ le y x = false.
Proof.
  destruct x; try discriminate. intros _. destruct y; split; reflexivity.
Qed.

Lemma in_box_outside (lat lon : float) (b : box) :
  isna lat = true \/ isna lon = true
  \/ lt (int (lat_max b)) lat = true \/ lt lat (int (lat_min b)) = true
  \/ lt lon (int (lon_min b)) = true \/ lt (int (lon_max b)) lon = true ->
  in_box lat lon b = false.
Proof.
  intro H. destruct (in_box lat lon b) eqn:E; [| reflexivity].
  exfalso. apply in_box_true in E as [A [B [C D]]].
  destruct H as [H|[H|[H|[H|[H|H]]]]].
  - destruct (isna_not_le lat (int (lat_max b)) H). congruence.
  - destruct (isna_not_le lon (int (lon_max b)) H). congruence.
  - pose proof (lt_le_int _ _ _ H D). lia.
  - pose proof (le_lt_int _ _ _ C H). lia.
  - pose proof (le_lt_int _ _ _ A H). lia.
  - pose proof (lt_le_int _ _ _ H B). lia.
Qed.

Lemma lt_lower_weaken (a a' : Z) (x : float) :
  lt (int a) x = true -> (a' <= a)%Z -> lt (int a') x = true.
Proof.
  destruct x as [q| | |]; simpl; try discriminate; [| reflexivity].
  intros H1 H2. apply negb_true_iff, Qle_bool_false in H1.
  apply negb_true_iff, Qle_bool_false.
  rewrite Zle_Qle in H2. exact (Qle_lt_trans _ _ _ H2 H1).
Qed.

Lemma lt_upper_weaken (b b' : Z) (x : float) :
  lt x (int b) = true -> (b <= b')%Z -> lt x (int b') = true.
Proof.
  destruct x as [q| | |]; simpl; try discriminate; [| reflexivity].
  intros H1 H2. apply negb_true_iff, Qle_bool_false in H1.
  apply negb_true_iff, Qle_bool_false.
  rewrite Zle_Qle in H2. exact (Qlt_le_trans _ _ _ H1 H2).
Qed.

(** X2. A point north of 70 or south of -60 degrees of latitude, west of
    -120 or east of 180 degrees of longitude, or with a coordinate that is
    NaN, is classified Ocean. *)
Theorem get_continent_ocean_outside (lat lon : float) :
  isna lat = true \/ isna lon = true
  \/ lt (int 70) lat = true \/ lt lat (int (-60)) = true
  \/ lt lon (int (-120)) = true \/ lt (int 180) lon = true ->
  get_continent lat lon = "Ocean".
Proof.
  intro H. rewrite get_continent_is_first_match. unfold first_match_spec.
  destruct (find (in_box lat lon) bounding_boxes) as [b|] eqn:F; [| reflexivity].
  exfalso. apply find_some in F as [Hin Hb].
  rewrite in_box_outside in Hb; [discriminate |].
  assert (Hbounds : (lat_max b <= 70 /\ -60 <= lat_min b
                     /\ -120 <= lon_min b /\ lon_max b <= 180)%Z).
  { unfold bounding_boxes in Hin. simpl in Hin.
    destruct Hin as [<-|[<-|[<-|[<-|[<-|[<-|[]]]]]]]; simpl; lia. }
  destruct Hbounds as [B1 [B2 [B3 B4]]].
  destruct H as [H|[H|[H|[H|[H|H]]]]].
  - left. exact H.
  - right. left. exact H.
  - right. right. left. exact (lt_lower_weaken 70 _ lat H B1).
  - right. right. right. left. exact (lt_upper_weaken (-60) _ lat H B2).
  - right. right. right. right. left. exact (lt_upper_weaken (-120) _ lon H B3).
  - right. right. right. right. right. exact (lt_lower_weaken 180 _ lon H B4).
Qed.

Lemma get_continent_ocean_outside_witness :
  get_continent (dec 612 10) (int (-150)) = "Ocean"
  /\ get_continent NaN (int 10) = "Ocean"
  /\ get_continent (int (-65)) (int (-60)) = "Ocean".
Proof.
  split; [| split].
  - apply get_continent_ocean_outside. do 4 right. left. reflexivity.
  - apply get_continent_ocean_outside. left. reflexivity.
  - apply get_continent_ocean_outside. do 3 right. left. reflexivity.
Defined.

(* ------------------------------------------------------------------ *)
(** ** Time of day *)

Lemma dt_hour_is_hour_of_ms (l : list (option Z)) :
  Series.dt_hour (TimeCol l) = Ok (map (option_map hour_of_ms) l).
Proof. reflexivity. Qed.

Lemma hour_of_ms_range (ms : Z) : (0 <= hour_of_ms ms < 24)%Z.
Proof. unfold hour_of_ms. apply Z.mod_pos_bound. lia. Qed.

Lemma ms_of_day (ms : Z) :
  (ms mod 86400000 = ms mod 3600000 + 3600000 * hour_of_ms ms)%Z.
Proof.
  unfold hour_of_ms.
  replace 86400000%Z with (3600000 * 24)%Z by reflexivity.
  rewrite Z.rem_mul_r by lia. reflexivity.
Qed.

(** X3. The time of day computed from a timestamp is "noche" exactly when
    its millisecond of the day falls before 06:00 or at or after 18:00, and
    "dia" otherwise, also for timestamps before the epoch; a missing
    timestamp (NaT) is labelled "dia". *)
Theorem time_of_day_by_clock :
  (forall ms : Z,
      time_of_day (Some (hour_of_ms ms)) = "noche"
      <-> (ms mod 86400000 < 21600000 \/ 64800000 <= ms mod 86400000)%Z)
  /\ (forall ms : Z,
        time_of_day (Some (hour_of_ms ms)) = "dia"
        <-> (21600000 <= ms mod 86400000 < 64800000)%Z)
  /\ time_of_day None = "dia"
  /\ (forall l : list (option Z),
        Series.dt_hour (TimeCol l) = Ok (map (option_map hour_of_ms) l)).
Proof.
  assert (Hcases : forall ms,
             (hour_of_ms ms < 6 \/ 18 <= hour_of_ms ms
              <-> ms mod 86400000 < 21600000 \/ 64800000 <= ms mod 86400000)%Z).
  { intro ms. rewrite ms_of_day.
    pose proof (hour_of_ms_range ms).
    pose proof (Z.mod_pos_bound ms 3600000 ltac:(lia)). lia. }
  split; [| split; [| split]].
  - intro ms. rewrite <- Hcases. unfold time_of_day.
    destruct (hour_of_ms ms <? 6)%Z eqn:E1; cbn [orb].
    + apply Z.ltb_lt in E1. split; [intros _; lia | reflexivity].
    + apply Z.ltb_ge in E1.
      destruct (hour_of_ms ms >=? 18)%Z eqn:E2.
      * apply Z.geb_le in E2. split; [intros _; lia | reflexivity].
      * rewrite Z.geb_leb in E2. apply Z.leb_gt in E2.
        split; [discriminate | lia].
  - intro ms. pose proof (Hcases ms) as Hc.
    pose proof (Z.mod_pos_bound ms 86400000 ltac:(lia)) as Hr.
    unfold time_of_day.
    destruct (hour_of_ms ms <? 6)%Z eqn:E1; cbn [orb].
    + apply Z.ltb_lt in E1. split; [discriminate | lia].
    + apply Z.ltb_ge in E1.
      destruct (hour_of_ms ms >=? 18)%Z eqn:E2.
      * apply Z.geb_le in E2. split; [discriminate | lia].
      * rewrite Z.geb_leb in E2. apply Z.leb_gt in E2.
        split; [intros _; lia | reflexivity].
  - reflexivity.
  - exact dt_hour_is_hour_of_ms.
Qed.

(* ------------------------------------------------------------------ *)
(** ** Shape of an extracted region *)

Lemma lstrip_keep_one_some (rest g : pystr) :
  lstrip_keep_one rest = Some g ->
  g <> [] /\ exists ws, rest = ws ++ g /\ forallb Regex.is_space ws = true.
Proof.
  revert g. induction rest as [|c t IH]; intros g; [discriminate |].
  cbn [lstrip_keep_one]. destruct (Regex.is_space c) eqn:Hc.
  - destruct (lstrip_keep_one t) as [g'|] eqn:E.
    + intros [= <-]. destruct (IH g' eq_refl) as [Hne [ws [-> Hws]]].
      split; [exact Hne |]. exists (c :: ws). split; [reflexivity |].
      cbn [forallb]. now rewrite Hc, Hws.
    + intros [= <-]. rewrite (RegexFacts.lstrip_keep_one_none t E).
      split; [discriminate |]. exists []. split; reflexivity.
  - intros [= <-]. split; [discriminate |]. exists []. split; reflexivity.
Qed.

(** X4. A region, when one is extracted, is a non-empty end of the place
    that holds no comma, and between it and the final comma of the place
    there is whitespace only. *)
Theorem region_shape (place g : pystr) :
  region place = Some g ->
  g <> [] /\ has_comma g = false
  /\ exists pre ws,
       place = pre ++ Regex.comma :: ws ++ g
       /\ forallb Regex.is_space ws = true.
Proof.
  unfold region. intro H.
  destruct (after_last_comma place) as [rest|] eqn:E.
  - destruct (RegexFacts.after_last_comma_some place rest E) as [pre [-> Hno]].
    rewrite (RegexFacts.search_last_comma pre rest Hno) in H.
    rewrite (RegexFacts.spaces_then_no_comma rest Hno) in H.
    destruct (lstrip_keep_one_some rest g H) as [Hne [ws [-> Hws]]].
    split; [exact Hne |]. split.
    + unfold has_comma in *. rewrite existsb_app in Hno.
      now apply orb_false_elim in Hno as [_ Hg].
    + exists pre, ws. split; [reflexivity | exact Hws].
  - rewrite (RegexFacts.search_no_comma place
               (RegexFacts.after_last_comma_none place E)) in H.
    discriminate.
Qed.

Lemma region_shape_witness :
  codes "Alaska" <> []
  /\ has_comma (codes "Alaska") = false
  /\ exists pre ws,
       codes "52 km W of Anchor Point, Alaska"
       = pre ++ Regex.comma :: ws ++ codes "Alaska"
       /\ forallb Regex.is_space ws = true.
Proof.
  apply (region_shape (codes "52 km W of Anchor Point, Alaska") (codes "Alaska")).
  reflexivity.
Defined.

(* ------------------------------------------------------------------ *)
(** ** Payloads that are not a feature collection *)

Lemma mapM_app_raise {A B : Type} (f : A -> result B)
  (good : list A) (bad : A) (rest : list A) (e : exn) :
  (forall a, In a good -> exists b, f a = Ok b) ->
  f bad = Raise e ->
  mapM f (good ++ bad :: rest) = Raise e.
Proof.
  intros Hgood Hbad. induction good as [|a good' IH].
  - cbn [app mapM]. now rewrite Hbad.
  - cbn [app mapM].
    destruct (Hgood a (or_introl eq_refl)) as [b Hb]. rewrite Hb. cbn [bind].
    rewrite IH; [reflexivity |].
    intros a' Hin. apply Hgood. right. exact Hin.
Qed.

(** X5. What the transformer does with a payload that is not a feature
    collection: a falsy payload (None, an empty dict, list or string, zero,
    False) gives the empty table; a non-empty dict without the key
    [features] raises KeyError('features'); a truthy payload that is not a
    dict raises TypeError, and so does a dict whose [features] is null, a
    boolean, a number, a non-empty string or a non-empty dict; an empty
    list, dict or string under [features] raises KeyError('time'). *)
Theorem process_data_on_other_payloads (normal : nat -> float) :
  (forall raw, truthy raw = false ->
               process_data normal raw = Ok Frame.empty_frame)
  /\ (forall kv, kv <> [] -> dict_get kv "features" = None ->
                 process_data normal (JObj kv) = Raise (KeyError (Key "features")))
  /\ (forall raw, truthy raw = true -> (forall kv, raw <> JObj kv) ->
                  process_data normal raw = Raise TypeError)
  /\ (forall kv v, dict_get kv "features" = Some v ->
                   (v = JNull \/ (exists b, v = JBool b) \/ (exists x, v = JNum x)
                    \/ (exists c s, v = JStr (c :: s))
                    \/ (exists p o, v = JObj (p :: o))) ->
                   process_data normal (JObj kv) = Raise TypeError)
  /\ (forall kv v, dict_get kv "features" = Some v ->
                   (v = JArr [] \/ v = JObj [] \/ v = JStr []) ->
                   process_data normal (JObj kv) = Raise (KeyError (Key "time"))).
Proof.
  split; [| split; [| split; [| split]]].
  - intros raw H. unfold process_data. now rewrite H.
  - intros kv Hne H. unfold process_data.
    destruct kv as [|p kv']; [contradiction |].
    cbn [truthy List.length Nat.eqb negb getitem]. now rewrite H.
  - intros raw Ht Hobj. unfold process_data. rewrite Ht. cbn [negb].
    destruct raw; try reflexivity. exfalso. exact (Hobj kv eq_refl).
  - intros kv v Hv Hshape. unfold process_data.
    rewrite (collection_is_truthy kv v Hv). cbn [negb getitem]. rewrite Hv.
    cbn [bind].
    destruct Hshape as [->|[[b ->]|[[x ->]|[[c [s ->]]|[p [o ->]]]]]];
      reflexivity.
  - intros kv v Hv Hshape. unfold process_data.
    rewrite (collection_is_truthy kv v Hv). cbn [negb getitem]. rewrite Hv.
    cbn [bind].
    destruct Hshape as [->|[->| ->]]; reflexivity.
Qed.

Lemma process_data_on_other_payloads_witness :
  process_data constant_normal (JArr []) = Ok Frame.empty_frame
  /\ process_data constant_normal
       (JObj [("error", JStr (codes "Bad Request"))])
     = Raise (KeyError (Key "features"))
  /\ process_data constant_normal (JObj [("features", JNull)]) = Raise TypeError
  /\ process_data constant_normal (JObj [("features", JObj [])])
     = Raise (KeyError (Key "time")).
Proof.
  pose proof (process_data_on_other_payloads constant_normal)
    as [H1 [H2 [_ [H4 H5]]]].
  split; [| split; [| split]].
  - apply H1. reflexivity.
  - apply H2; [discriminate | reflexivity].
  - apply (H4 _ JNull); [reflexivity | left; reflexivity].
  - apply (H5 _ (JObj [])); [reflexivity | right; left; reflexivity].
Defined.

(* ------------------------------------------------------------------ *)
(** ** Which exception a malformed feature raises *)

(** X6. The exception of the transformation is that of the first feature,
    in list order, whose flattening fails: the features before it are
    flattened without effect and the ones after it are not looked at. *)
Theorem first_malformed_feature_decides
  (normal : nat -> float) (kv : list (string * json))
  (good : list json) (bad : json) (rest : list json) (e : exn) :
  dict_get kv "features" = Some (JArr (good ++ bad :: rest)) ->
  (forall f, In f good -> exists r, record_of f = Ok r) ->
  record_of bad = Raise e ->
  process_data normal (JObj kv) = Raise e.
Proof.
  intros Hfs Hgood Hbad. unfold process_data.
  rewrite (collection_is_truthy kv _ Hfs). cbn [negb getitem].
  rewrite Hfs. cbn [bind iter].
  now rewrite (mapM_app_raise record_of good bad rest e Hgood Hbad).
Qed.

Lemma first_malformed_feature_decides_witness :
  process_data constant_normal
    (JObj [("features",
            JArr ([sample_feature JNull JNull]
                  ++ JObj [("properties", JObj [("time", JNum (int 0))]);
                           ("geometry", JNull)]
                  :: [JNull; sample_feature JNull JNull]))])
  = Raise (KeyError (Key "mag")).
Proof.
  apply (first_malformed_feature_decides constant_normal _
           [sample_feature JNull JNull]
           (JObj [("properties", JObj [("time", JNum (int 0))]);
                  ("geometry", JNull)])
           [JNull; sample_feature JNull JNull]).
  - reflexivity.
  - intros f [<- | []]. eexists. reflexivity.
  - reflexivity.
Defined.

(** X7. The flattening of one feature reads [properties], then [geometry],
    then the keys time, mag, place, then the coordinates, and raises at the
    first lookup that fails: a feature that is not a dict raises TypeError;
    a missing [properties], [geometry], time, mag, place or [coordinates]
    raises the KeyError of that key, [geometry] being missed before any key
    of [properties] is; a coordinates array of fewer than three elements
    raises IndexError. *)
Theorem record_of_reports_first_failure :
  (forall f, (forall kv, f <> JObj kv) -> record_of f = Raise TypeError)
  /\ (forall kv, dict_get kv "properties" = None ->
                 record_of (JObj kv) = Raise (KeyError (Key "properties")))
  /\ (forall kv p, dict_get kv "properties" = Some p ->
                   dict_get kv "geometry" = None ->
                   record_of (JObj kv) = Raise (KeyError (Key "geometry")))
  /\ (forall kv pk g k,
         dict_get kv "properties" = Some (JObj pk) ->
         dict_get kv "geometry" = Some g ->
         (k = "time"
          \/ (k = "mag" /\ dict_get pk "time" <> None)
          \/ (k = "place" /\ dict_get pk "time" <> None
              /\ dict_get pk "mag" <> None)) ->
         dict_get pk k = None ->
         record_of (JObj kv) = Raise (KeyError (Key k)))
  /\ (forall kv pk gk,
         dict_get kv "properties" = Some (JObj pk) ->
         dict_get kv "geometry" = Some (JObj gk) ->
         dict_get pk "time" <> None -> dict_get pk "mag" <> None ->
         dict_get pk "place" <> None ->
         (dict_get gk "coordinates" = None ->
          record_of (JObj kv) = Raise (KeyError (Key "coordinates")))
         /\ (forall l, dict_get gk "coordinates" = Some (JArr l) ->
                       (List.length l < 3)%nat ->
                       record_of (JObj kv) = Raise IndexError)).
Proof.
  split; [| split; [| split; [| split]]].
  - intros f Hf. destruct f; try reflexivity. exfalso. exact (Hf kv eq_refl).
  - intros kv H. unfold record_of. cbn [getitem]. now rewrite H.
  - intros kv p Hp Hg. unfold record_of. cbn [getitem].
    rewrite Hp. cbn [bind]. now rewrite Hg.
  - intros kv pk g k Hp Hg Hk Hmiss. unfold record_of. cbn [getitem].
    rewrite Hp. cbn [bind]. rewrite Hg. cbn [bind getitem].
    destruct Hk as [-> | [[-> Ht] | [-> [Ht Hm]]]].
    + now rewrite Hmiss.
    + destruct (dict_get pk "time"); [| contradiction]. cbn [bind].
      now rewrite Hmiss.
    + destruct (dict_get pk "time"); [| contradiction]. cbn [bind].
      destruct (dict_get pk "mag"); [| contradiction]. cbn [bind].
      now rewrite Hmiss.
  - intros kv pk gk Hp Hg Ht Hm Hpl.
    unfold record_of. cbn [getitem].
    rewrite Hp. cbn [bind]. rewrite Hg. cbn [bind getitem].
    destruct (dict_get pk "time"); [| contradiction]. cbn [bind].
    destruct (dict_get pk "mag"); [| contradiction]. cbn [bind].
    destruct (dict_get pk "place"); [| contradiction]. cbn [bind].
    split.
    + intro Hc. now rewrite Hc.
    + intros l Hc Hlen. rewrite Hc. cbn [bind getitem].
      destruct (nth_error l 2) eqn:E; [| reflexivity].
      exfalso. assert (nth_error l 2 <> None) by congruence.
      apply nth_error_Some in H. lia.
Qed.

Lemma record_of_reports_first_failure_witness :
  record_of (JArr []) = Raise TypeError
  /\ record_of (JObj [("properties", JNull)]) = Raise (KeyError (Key "geometry"))
  /\ record_of (JObj [("properties",
                       JObj [("time", JNum (int 0)); ("mag", JNum (int 3));
                             ("place", JNull)]);
                      ("geometry",
                       JObj [("coordinates", JArr [JNum (int 1); JNum (int 2)])])])
     = Raise IndexError.
Proof.
  pose proof record_of_reports_first_failure as [H1 [_ [H3 [_ H5]]]].
  split; [| split].
  - apply H1. discriminate.
  - apply (H3 _ JNull); reflexivity.
  - assert (Hshort : (List.length [JNum (int 1); JNum (int 2)] < 3)%nat)
      by (cbn; lia).
    apply (proj2 (H5 [("properties",
                       JObj [("time", JNum (int 0)); ("mag", JNum (int 3));
                             ("place", JNull)]);
                      ("geometry",
                       JObj [("coordinates", JArr [JNum (int 1); JNum (int 2)])])]
                     [("time", JNum (int 0)); ("mag", JNum (int 3));
                      ("place", JNull)]
                     [("coordinates", JArr [JNum (int 1); JNum (int 2)])]
                     eq_refl eq_refl
                     ltac:(discriminate) ltac:(discriminate) ltac:(discriminate))
             [JNum (int 1); JNum (int 2)] eq_refl Hshort).
Defined.

(* ------------------------------------------------------------------ *)
(** ** Every table the transformer returns *)

Lemma to_datetime_inv (l : list json) (t : list (option Z)) :
  Series.to_datetime (ObjCol l) = Ok t -> t = map Series.epoch_ms l.
Proof.
  unfold Series.to_datetime.
  destruct (forallb _ l); [intros [= <-]; reflexivity | discriminate].
Qed.

Lemma numeric_inv (l : list json) (m : list float) :
  Series.numeric (ObjCol l) = Ok m -> m = map Series.to_float l.
Proof.
  unfold Series.numeric.
  destruct (forallb _ l && existsb _ l); [intros [= <-]; reflexivity | discriminate].
Qed.

Lemma str_extract_inv (l : list json) (r : list (option pystr)) :
  Series.str_extract (ObjCol l) = Ok r -> r = map Series.extract_cell l.
Proof.
  unfold Series.str_extract.
  destruct (forallb Series.is_str_or_null l); [intros [= <-]; reflexivity |].
  destruct (forallb Series.is_num l); discriminate.
Qed.

(** Whatever the payload, a table returned for a truthy one is the
    enriched frame of the flattened features, of which there is at least
    one. *)
Lemma process_data_ok_inv (normal : nat -> float) (raw : json) (df : DataFrame) :
  truthy raw = true ->
  process_data normal raw = Ok df ->
  exists fs items recs,
    getitem raw (Key "features") = Ok fs
    /\ iter fs = Ok items
    /\ mapM record_of items = Ok recs
    /\ recs <> []
    /\ df = enriched_frame normal recs.
Proof.
  intros Ht H. unfold process_data in H. rewrite Ht in H. cbn [negb] in H.
  apply bind_ok in H as [fs [Gfs H]].
  apply bind_ok in H as [items [Gitems H]].
  apply bind_ok in H as [recs [Grecs H]].
  exists fs, items, recs.
  split; [exact Gfs |]. split; [exact Gitems |]. split; [exact Grecs |].
  destruct recs as [|r recs']; [discriminate H |].
  split; [discriminate |].
  cbv zeta in H.
  repeat match type of H with
    | bind (Frame.getcol ?d ?n) _ = Ok _ =>
        let c := fresh "c" in
        let G := fresh "G" in
        apply bind_ok in H as [c [G H]];
        cbn -[Series.to_datetime Series.numeric Series.str_extract
              Series.dt_hour Pandas.cut random_normal map] in G;
        injection G as <-
    | bind (Series.to_datetime _) _ = Ok _ =>
        let t := fresh "t" in
        let G := fresh "G" in
        apply bind_ok in H as [t [G H]];
        apply to_datetime_inv in G; subst t
    | bind (Series.str_extract _) _ = Ok _ =>
        let t := fresh "t" in
        let G := fresh "G" in
        apply bind_ok in H as [t [G H]];
        apply str_extract_inv in G; subst t
    | bind (Series.numeric _) _ = Ok _ =>
        let t := fresh "t" in
        let G := fresh "G" in
        apply bind_ok in H as [t [G H]];
        apply numeric_inv in G; subst t
    | bind (Series.dt_hour _) _ = Ok _ =>
        let t := fresh "t" in
        let G := fresh "G" in
        apply bind_ok in H as [t [G H]];
        cbn [Series.dt_hour] in G; injection G as <-
    end.
  injection H as <-. reflexivity.
Qed.

Lemma getitem_arr_idx (l : list json) (n : nat) (x : json) :
  getitem (JArr l) (Idx n) = Ok x -> nth_error l n = Some x.
Proof.
  cbn [getitem]. destruct (nth_error l n); [intros [= ->]; reflexivity | discriminate].
Qed.

(** A flattened record holds the values found under the keys of its
    feature. *)
Lemma record_of_fields (f : json) (r : RawEvent) :
  record_of f = Ok r ->
  property_of f "time" = Some (raw_time r)
  /\ property_of f "mag" = Some (raw_magnitude r)
  /\ property_of f "place" = Some (raw_place r)
  /\ property_of f "type" = Some (raw_type r)
  /\ property_of f "status" = Some (raw_status r)
  /\ (forall l, coordinates_of f = Some (JArr l) ->
                nth_error l 0 = Some (raw_longitude r)
                /\ nth_error l 1 = Some (raw_latitude r)
                /\ nth_error l 2 = Some (raw_depth_km r)).
Proof.
  unfold record_of. intro H. peel H. injection H as <-. cbn.
  repeat match goal with
    | G : getitem _ (Key _) = Ok _ |- _ => apply getitem_key_ok in G
    end.
  repeat match goal with
    | G1 : ?a = Some ?x, G2 : ?a = Some ?y |- _ =>
        assert (y = x) by congruence; subst y; clear G2
    end.
  unfold property_of, coordinates_of.
  repeat match goal with
    | G : member _ _ = Some _ |- _ => rewrite G
    end.
  repeat (split; [reflexivity |]).
  intros l [= ->].
  repeat match goal with
    | G : getitem (JArr _) (Idx _) = Ok _ |- _ => apply getitem_arr_idx in G
    end.
  repeat split; assumption.
Qed.

Lemma mapM_forall2 {A B : Type} (f : A -> result B) (l : list A) (bs : list B) :
  mapM f l = Ok bs -> Forall2 (fun a b => f a = Ok b) l bs.
Proof.
  revert bs. induction l as [|a rest IH]; intros bs H.
  - injection H as <-. constructor.
  - cbn [mapM] in H.
    apply bind_ok in H as [b [Hb H]].
    apply bind_ok in H as [bs' [Hbs H]].
    injection H as <-. constructor; [exact Hb | exact (IH bs' Hbs)].
Qed.

Lemma Forall2_nth {A B : Type} (P : A -> B -> Prop) (l : list A) (bs : list B) :
  Forall2 P l bs ->
  forall i a, nth_error l i = Some a ->
              exists b, nth_error bs i = Some b /\ P a b.
Proof.
  induction 1 as [|x y l' bs' Hxy _ IH]; intros i a Hi.
  - destruct i; discriminate.
  - destruct i as [|i'].
    + injection Hi as <-. exists y. split; [reflexivity | exact Hxy].
    + exact (IH i' a Hi).
Qed.

Lemma nth_error_combine {A B : Type} (l1 : list A) (l2 : list B)
  (i : nat) (a : A) (b : B) :
  nth_error l1 i = Some a -> nth_error l2 i = Some b ->
  nth_error (combine l1 l2) i = Some (a, b).
Proof.
  revert l2 i. induction l1 as [|x l1' IH]; intros l2 i H1 H2.
  - destruct i; discriminate.
  - destruct l2 as [|y l2']; [destruct i; discriminate |].
    destruct i as [|i']; cbn in *.
    + congruence.
    + exact (IH l2' i' H1 H2).
Qed.

(** Row [i] of a returned frame, cell by cell, in terms of feature [i]. *)
Lemma table_rows
  (normal : nat -> float) (kv : list (string * json)) (fs : list json)
  (df : DataFrame) :
  dict_get kv "features" = Some (JArr fs) ->
  process_data normal (JObj kv) = Ok df ->
  Frame.len df = List.length fs
  /\ forall i f, nth_error fs i = Some f ->
       exists time mag place,
         property_of f "time" = Some time
         /\ property_of f "mag" = Some mag
         /\ property_of f "place" = Some place
         /\ nth_error (obj_cells (Frame.getcol df "magnitude")) i = Some mag
         /\ nth_error (obj_cells (Frame.getcol df "place")) i = Some place
         /\ nth_error (time_cells (Frame.getcol df "time")) i
            = Some (Series.epoch_ms time)
         /\ nth_error (str_cells (Frame.getcol df "region")) i
            = Some (Series.extract_cell place)
         /\ nth_error (cat_cells (Frame.getcol df "severity")) i
            = Some (severity (Series.to_float mag))
         /\ nth_error (label_cells (Frame.getcol df "time_of_day")) i
            = Some (time_of_day (option_map hour_of_ms (Series.epoch_ms time)))
         /\ (forall l, coordinates_of f = Some (JArr l) ->
               exists lon lat depth,
                 nth_error l 0 = Some lon /\ nth_error l 1 = Some lat
                 /\ nth_error l 2 = Some depth
                 /\ nth_error (obj_cells (Frame.getcol df "longitude")) i = Some lon
                 /\ nth_error (obj_cells (Frame.getcol df "latitude")) i = Some lat
                 /\ nth_error (obj_cells (Frame.getcol df "depth_km")) i = Some depth
                 /\ nth_error (cat_cells (Frame.getcol df "depth_category")) i
                    = Some (depth_category (Series.to_float depth))
                 /\ nth_error (label_cells (Frame.getcol df "continent")) i
                    = Some (get_continent (Series.to_float lat)
                              (Series.to_float lon))).
Proof.
  intros Hfs Hdf.
  destruct (process_data_ok_inv normal (JObj kv) df
              (collection_is_truthy kv (JArr fs) Hfs) Hdf)
    as [fs' [items [recs [G1 [G2 [G3 [_ ->]]]]]]].
  cbn [getitem] in G1. rewrite Hfs in G1. injection G1 as <-.
  cbn [iter] in G2. injection G2 as <-.
  pose proof (mapM_forall2 record_of fs recs G3) as Hall.
  split.
  { cbn. symmetry. exact (Forall2_length Hall). }
  intros i f Hi.
  destruct (Forall2_nth _ fs recs Hall i f Hi) as [r [Hr Hrec]].
  destruct (record_of_fields f r Hrec) as [Ft [Fm [Fp [_ [_ Fc]]]]].
  exists (raw_time r), (raw_magnitude r), (raw_place r).
  cbn -[nth_error map severity depth_category get_continent time_of_day
        Series.epoch_ms Series.extract_cell Series.to_float hour_of_ms].
  assert (Hcell : forall (A : Type) (g : RawEvent -> A),
             nth_error (map g recs) i = Some (g r))
    by (intros A g; rewrite nth_error_map, Hr; reflexivity).
  split; [exact Ft |]. split; [exact Fm |]. split; [exact Fp |].
  split; [apply Hcell |]. split; [apply Hcell |].
  split; [rewrite !nth_error_map, Hr; reflexivity |].
  split; [rewrite !nth_error_map, Hr; reflexivity |].
  split; [rewrite !nth_error_map, Hr; reflexivity |].
  split; [rewrite !nth_error_map, Hr; reflexivity |].
  intros l Hl. destruct (Fc l Hl) as [H0 [H1 H2]].
  exists (raw_longitude r), (raw_latitude r), (raw_depth_km r).
  split; [exact H0 |]. split; [exact H1 |]. split; [exact H2 |].
  split; [apply Hcell |]. split; [apply Hcell |]. split; [apply Hcell |].
  split; [rewrite !nth_error_map, Hr; reflexivity |].
  rewrite nth_error_map.
  rewrite (nth_error_combine _ _ i (Series.to_float (raw_latitude r))
             (Series.to_float (raw_longitude r)));
    [reflexivity | |]; rewrite !nth_error_map, Hr; reflexivity.
Qed.

(** X10. A table returned by the transformer is either the empty frame,
    for a falsy payload, or a table with at least one row, the fifteen
    columns of the enriched table in order, and as many cells in every
    column as it has rows: the writer is never handed a table with rows
    and no columns, or columns of unequal length. *)
Theorem returned_table_shape (normal : nat -> float) (raw : json) (df : DataFrame) :
  process_data normal raw = Ok df ->
  (truthy raw = false /\ df = Frame.empty_frame)
  \/ (truthy raw = true
      /\ Frame.empty df = false
      /\ (0 < Frame.len df)%nat
      /\ map fst (columns df) = enriched_columns
      /\ Forall (fun nc => Frame.col_length (snd nc) = Frame.len df) (columns df)).
Proof.
  intro H. destruct (truthy raw) eqn:Ht.
  - right. split; [reflexivity |].
    destruct (process_data_ok_inv normal raw df Ht H)
      as [fs [items [recs [_ [_ [_ [Hne ->]]]]]]].
    destruct recs as [|r recs']; [contradiction |].
    split; [reflexivity |]. split; [cbn; lia |]. split; [reflexivity |].
    unfold enriched_frame. cbn [columns Frame.len index].
    repeat constructor; cbn [snd Frame.col_length];
      repeat (rewrite ?length_map, ?length_combine, ?length_seq, ?Nat.min_id);
      reflexivity.
  - left. split; [reflexivity |].
    unfold process_data in H. rewrite Ht in H. cbn [negb] in H. congruence.
Qed.

Lemma returned_table_shape_witness :
  exists df,
    process_data constant_normal (collection two_features) = Ok df
    /\ ((truthy (collection two_features) = false /\ df = Frame.empty_frame)
        \/ (truthy (collection two_features) = true
            /\ Frame.empty df = false
            /\ (0 < Frame.len df)%nat
            /\ map fst (columns df) = enriched_columns
            /\ Forall (fun nc => Frame.col_length (snd nc) = Frame.len df)
                  (columns df))).
Proof.
  eexists. split; [reflexivity |].
  apply (returned_table_shape constant_normal (collection two_features)).
  reflexivity.
Defined.

(* ------------------------------------------------------------------ *)
(** ** Batches with nulls *)

Lemma record_of_nullable (f : json) :
  nullable_feature f = true -> exists r, record_of f = Ok r.
Proof.
  unfold nullable_feature, coordinates_of, has_key.
  destruct (member f "properties") as [p|] eqn:Hp; [| discriminate].
  destruct (member f "geometry") as [g|] eqn:Hg; [| discriminate].
  destruct (member g "coordinates") as [c|] eqn:Hc; [| discriminate].
  destruct c as [| | | |l|]; try discriminate.
  destruct l as [|lon [|lat [|depth more]]]; try discriminate.
  intro H.
  repeat (apply andb_true_iff in H as [H ?]).
  destruct (member p "type") as [ty|] eqn:Hty; [| discriminate].
  destruct (member p "status") as [st|] eqn:Hst; [| discriminate].
  repeat match goal with
    | G : holds _ _ = true |- _ =>
        apply holds_some in G as [? [? ?]]
    end.
  unfold record_of.
  repeat match goal with
    | G : member _ _ = Some _ |- _ => apply member_getitem in G
    end.
  repeat match goal with
    | G : getitem ?v ?k = Ok _ |- context [getitem ?v ?k] =>
        rewrite G; cbn [bind]
    end.
  cbn [getitem nth_error bind].
  eexists. reflexivity.
Qed.

Lemma nullable_record_of (f : json) (r : RawEvent) :
  nullable_feature f = true -> record_of f = Ok r -> nullable_record r = true.
Proof.
  intros Hn Hr.
  destruct (record_of_fields f r Hr) as [Ft [Fm [Fp [_ [_ Fc]]]]].
  unfold nullable_feature in Hn. unfold property_of in Ft, Fm, Fp.
  destruct (member f "properties") as [p|]; [| discriminate].
  destruct (coordinates_of f) as [c|]; [| discriminate].
  destruct c as [| | | |l|]; try discriminate.
  destruct (Fc l eq_refl) as [H0 [H1 H2]].
  destruct l as [|lon [|lat [|depth more]]]; try discriminate.
  cbn in H0, H1, H2. injection H0 as ->. injection H1 as ->. injection H2 as ->.
  rewrite Ft, Fm, Fp in Hn. cbn [holds] in Hn.
  repeat (apply andb_true_iff in Hn as [Hn ?]).
  unfold nullable_record.
  repeat (apply andb_true_iff; split); assumption.
Qed.

Lemma mapM_nullable (fs : list json) :
  forallb nullable_feature fs = true ->
  exists recs, mapM record_of fs = Ok recs
               /\ forallb nullable_record recs = true.
Proof.
  induction fs as [|f rest IH]; intro H.
  - exists []. split; reflexivity.
  - cbn [forallb] in H. apply andb_true_iff in H as [Hf Hrest].
    destruct (record_of_nullable f Hf) as [r Hr].
    destruct (IH Hrest) as [recs [Hrecs Hall]].
    exists (r :: recs). cbn [mapM]. rewrite Hr. cbn [bind].
    rewrite Hrecs. cbn [bind]. split; [reflexivity |].
    cbn [forallb]. now rewrite (nullable_record_of f r Hf Hr), Hall.
Qed.

Lemma nullable_columns (recs : list RawEvent) :
  forallb nullable_record recs = true ->
  forallb epoch_ms_or_null (map raw_time recs) = true
  /\ forallb number_or_null (map raw_magnitude recs) = true
  /\ forallb Series.is_str_or_null (map raw_place recs) = true
  /\ forallb number_or_null (map raw_longitude recs) = true
  /\ forallb number_or_null (map raw_latitude recs) = true
  /\ forallb number_or_null (map raw_depth_km recs) = true.
Proof.
  intro H.
  repeat split;
    (eapply forallb_column; [| exact H]);
    intros r Hr; unfold nullable_record in Hr;
    repeat (apply andb_true_iff in Hr as [Hr ?]); assumption.
Qed.

(** A number held by some feature is a number of the column. *)
Lemma number_in_column (g : json -> option json) (h : RawEvent -> json)
  (fs : list json) (recs : list RawEvent) :
  (forall f r, record_of f = Ok r -> forall v, g f = Some v -> h r = v) ->
  Forall2 (fun f r => record_of f = Ok r) fs recs ->
  existsb (fun f => holds Series.is_number (g f)) fs = true ->
  existsb Series.is_number (map h recs) = true.
Proof.
  intros Hlink Hall Hex.
  apply existsb_exists in Hex as [f [Hin Hnum]].
  apply holds_some in Hnum as [v [Hg Hv]].
  destruct (Forall2_pick _ fs recs Hall f Hin) as [r [Hr Hrec]].
  apply existsb_exists. exists (h r). split.
  - apply in_map. exact Hr.
  - now rewrite (Hlink f r Hrec v Hg).
Qed.

Lemma coordinate_link (i : nat) (h : RawEvent -> json) :
  (forall f r, record_of f = Ok r ->
               forall l, coordinates_of f = Some (JArr l) ->
                         nth_error l i = Some (h r)) ->
  forall f r, record_of f = Ok r ->
              forall v, coordinate_of f i = Some v -> h r = v.
Proof.
  intros Hh f r Hr v Hv. unfold coordinate_of in Hv.
  destruct (coordinates_of f) as [c|] eqn:Hc; [| discriminate].
  destruct c; try discriminate.
  rewrite (Hh f r Hr l Hc) in Hv. congruence.
Qed.

Lemma numeric_nullable (l : list json) :
  forallb number_or_null l = true ->
  existsb Series.is_number l = true ->
  Series.numeric (ObjCol l) = Ok (map Series.to_float l).
Proof.
  intros H1 H2. unfold Series.numeric.
  change (forallb (fun v => Series.is_number v || Series.is_null v) l)
    with (forallb number_or_null l).
  now rewrite H1, H2.
Qed.

Lemma to_datetime_nullable (l : list json) :
  forallb epoch_ms_or_null l = true ->
  Series.to_datetime (ObjCol l) = Ok (map Series.epoch_ms l).
Proof.
  intro H. unfold Series.to_datetime.
  change (forallb (fun v => Series.is_epoch_ms v || Series.is_null v) l)
    with (forallb epoch_ms_or_null l).
  now rewrite H.
Qed.

Lemma process_data_nullable
  (normal : nat -> float) (kv : list (string * json)) (fs : list json) :
  dict_get kv "features" = Some (JArr fs) ->
  forallb nullable_feature fs = true ->
  numbers_present fs = true ->
  exists recs,
    mapM record_of fs = Ok recs
    /\ process_data normal (JObj kv) = Ok (enriched_frame normal recs).
Proof.
  intros Hfs Hnull Hnum. unfold process_data.
  rewrite (collection_is_truthy kv (JArr fs) Hfs). cbn [negb getitem].
  rewrite Hfs. cbn [bind iter].
  destruct (mapM_nullable fs Hnull) as [recs [Hrecs Hall]].
  exists recs. split; [exact Hrecs |].
  rewrite Hrecs. cbn [bind].
  pose proof (mapM_forall2 record_of fs recs Hrecs) as Hrel.
  unfold numbers_present in Hnum.
  repeat (apply andb_true_iff in Hnum as [Hnum ?]).
  assert (Em : existsb Series.is_number (map raw_magnitude recs) = true).
  { apply (number_in_column (fun f => property_of f "mag") raw_magnitude fs recs);
      [| exact Hrel | assumption].
    intros f r Hr v Hv.
    destruct (record_of_fields f r Hr) as [_ [Fm _]]. congruence. }
  assert (Elo : existsb Series.is_number (map raw_longitude recs) = true).
  { apply (number_in_column (fun f => coordinate_of f 0) raw_longitude fs recs);
      [| exact Hrel | assumption].
    apply coordinate_link. intros f r Hr l Hl.
    destruct (record_of_fields f r Hr) as [_ [_ [_ [_ [_ Fc]]]]].
    exact (proj1 (Fc l Hl)). }
  assert (Ela : existsb Series.is_number (map raw_latitude recs) = true).
  { apply (number_in_column (fun f => coordinate_of f 1) raw_latitude fs recs);
      [| exact Hrel | assumption].
    apply coordinate_link. intros f r Hr l Hl.
    destruct (record_of_fields f r Hr) as [_ [_ [_ [_ [_ Fc]]]]].
    exact (proj1 (proj2 (Fc l Hl))). }
  assert (Ed : existsb Series.is_number (map raw_depth_km recs) = true).
  { apply (number_in_column (fun f => coordinate_of f 2) raw_depth_km fs recs);
      [| exact Hrel | assumption].
    apply coordinate_link. intros f r Hr l Hl.
    destruct (record_of_fields f r Hr) as [_ [_ [_ [_ [_ Fc]]]]].
    exact (proj2 (proj2 (Fc l Hl))). }
  destruct recs as [|r recs']; [discriminate Em |].
  unfold Frame.of_records.
  destruct (nullable_columns (r :: recs') Hall) as [Ht [Hm [Hp [Hlo [Hla Hd]]]]].
  remember (r :: recs') as recs eqn:Erecs.
  cbn -[Series.to_datetime Series.numeric Series.str_extract Series.dt_hour
        Pandas.cut random_normal].
  rewrite (to_datetime_nullable _ Ht).
  cbn -[Series.to_datetime Series.numeric Series.str_extract Series.dt_hour
        Pandas.cut random_normal].
  rewrite (str_extract_typed _ Hp).
  cbn -[Series.to_datetime Series.numeric Series.str_extract Series.dt_hour
        Pandas.cut random_normal].
  rewrite (numeric_nullable _ Hm Em).
  cbn -[Series.to_datetime Series.numeric Series.str_extract Series.dt_hour
        Pandas.cut random_normal].
  rewrite (numeric_nullable _ Hd Ed).
  cbn -[Series.to_datetime Series.numeric Series.str_extract
        Pandas.cut random_normal].
  rewrite (numeric_nullable _ Hla Ela).
  cbn -[Series.to_datetime Series.numeric Series.str_extract
        Pandas.cut random_normal].
  rewrite (numeric_nullable _ Hlo Elo).
  cbn -[Series.to_datetime Series.numeric Series.str_extract
        Pandas.cut random_normal].
  reflexivity.
Qed.

Lemma get_continent_nan (lat lon : float) :
  isna lat = true \/ isna lon = true -> get_continent lat lon = "Ocean".
Proof.
  intro H. rewrite get_continent_by_boxes.
  rewrite !in_box_outside; [reflexivity | | | | | |];
    destruct H as [H|H]; tauto.
Qed.

(* ------------------------------------------------------------------ *)
(** ** The writer *)

Lemma read_write_same (fs : list (string * DataFrame)) (path : string)
  (df : DataFrame) :
  read (write fs path df) path = Some df.
Proof.
  induction fs as [|[p d] rest IH]; cbn [write read].
  - now rewrite String.eqb_refl.
  - destruct (String.eqb p path) eqn:E; cbn [read]; rewrite E;
      [reflexivity | exact IH].
Qed.

Lemma read_write_other (fs : list (string * DataFrame)) (path other : string)
  (df : DataFrame) :
  other <> path -> read (write fs path df) other = read fs other.
Proof.
  intro Hne. induction fs as [|[p d] rest IH]; cbn [write read].
  - destruct (String.eqb path other) eqn:E; [| reflexivity].
    apply String.eqb_eq in E. congruence.
  - destruct (String.eqb p path) eqn:E; cbn [read].
    + apply String.eqb_eq in E. subst p.
      destruct (String.eqb path other) eqn:E'; [| reflexivity].
      apply String.eqb_eq in E'. congruence.
    + now rewrite IH.
Qed.

Lemma write_write (fs : list (string * DataFrame)) (path : string)
  (d1 d2 : DataFrame) :
  write (write fs path d1) path d2 = write fs path d2.
Proof.
  induction fs as [|[p d] rest IH]; cbn [write].
  - now rewrite String.eqb_refl.
  - destruct (String.eqb p path) eqn:E; cbn [write]; rewrite E;
      [reflexivity | now rewrite IH].
Qed.

Lemma write_length (fs : list (string * DataFrame)) (path : string)
  (df : DataFrame) :
  List.length (write fs path df)
  = match read fs path with
    | Some _ => List.length fs
    | None => S (List.length fs)
    end.
Proof.
  induction fs as [|[p d] rest IH]; cbn [write read]; [reflexivity |].
  destruct (String.eqb p path); cbn [List.length]; [reflexivity |].
  rewrite IH. destruct (read rest path); reflexivity.
Qed.

(** What a successful write leaves, in terms of the path of the model. *)
Lemma save_to_csv_stores
  (str_exn : exn -> string) (df : DataFrame) (filename : string) (w : World) :
  Frame.empty df = false ->
  disk_error w = None ->
  let w' := save_to_csv str_exn df filename w in
  let path := output_path_of w filename in
  read (files w') path = Some df
  /\ (forall other, other <> path -> read (files w') other = read (files w) other)
  /\ console w' = console w ++ [String.append "Datos guardados en: " path;
                                 String.append "Ruta absoluta: " path]
  /\ base_dir w' = base_dir w /\ disk_error w' = disk_error w.
Proof.
  intros Hne Hdisk. unfold save_to_csv, to_csv, output_path_of.
  rewrite Hne, Hdisk. cbn.
  split; [apply read_write_same |].
  split; [intros other Ho; now apply read_write_other |].
  split; [now rewrite <- app_assoc |].
  split; reflexivity.
Qed.

(** X12. When the write raises, the writer swallows the exception: it
    prints the single line "Error al guardar archivo: ..." with the text of
    the exception and none of the lines that report a path. *)
Theorem save_to_csv_reports_failure
  (str_exn : exn -> string) (df : DataFrame) (filename : string) (w : World)
  (msg : string) :
  Frame.empty df = false ->
  disk_error w = Some msg ->
  console (save_to_csv str_exn df filename w)
  = console w ++ [String.append "Error al guardar archivo: "
                    (str_exn (OSError msg))].
Proof.
  intros Hne Hdisk. unfold save_to_csv, to_csv.
  rewrite Hne, Hdisk. reflexivity.
Qed.

Lemma save_to_csv_reports_failure_witness :
  console (save_to_csv class_name one_row_table "sismos.csv" read_only_world)
  = ["Error al guardar archivo: OSError"].
Proof.
  apply (save_to_csv_reports_failure class_name one_row_table "sismos.csv"
           read_only_world "Permission denied"); reflexivity.
Defined.

Lemma save_to_csv_files
  (str_exn : exn -> string) (df : DataFrame) (filename : string) (w : World) :
  files (save_to_csv str_exn df filename w)
  = if negb (Frame.empty df)
    then match disk_error w with
         | None => write (files w) (output_path_of w filename) df
         | Some _ => files w
         end
    else files w.
Proof.
  unfold save_to_csv, to_csv, output_path_of.
  destruct (Frame.empty df); cbn [negb]; [reflexivity |].
  destruct (disk_error w); reflexivity.
Qed.

Lemma save_to_csv_environment
  (str_exn : exn -> string) (df : DataFrame) (filename : string) (w : World) :
  base_dir (save_to_csv str_exn df filename w) = base_dir w
  /\ disk_error (save_to_csv str_exn df filename w) = disk_error w.
Proof.
  unfold save_to_csv, to_csv.
  destruct (Frame.empty df); cbn [negb]; [split; reflexivity |].
  destruct (disk_error w) eqn:E; cbn; rewrite ?E; split; reflexivity.
Qed.

(** X13. The last save wins: saving a table and then another one under the
    same name leaves the store as a single save of the second table would,
    and a save adds at most one path to the store. *)
Theorem save_to_csv_overwrites
  (str_exn : exn -> string) (df1 df2 : DataFrame) (filename : string) (w : World) :
  Frame.empty df2 = false ->
  disk_error w = None ->
  files (save_to_csv str_exn df2 filename (save_to_csv str_exn df1 filename w))
  = files (save_to_csv str_exn df2 filename w)
  /\ (List.length (files (save_to_csv str_exn df1 filename w))
      <= S (List.length (files w)))%nat.
Proof.
  intros Hne Hdisk. split.
  - rewrite !save_to_csv_files.
    destruct (save_to_csv_environment str_exn df1 filename w) as [Hb Hd].
    unfold output_path_of. rewrite Hb, Hd, Hne, Hdisk. cbn [negb].
    destruct (Frame.empty df1); cbn [negb]; [reflexivity |].
    apply write_write.
  - rewrite save_to_csv_files, Hdisk.
    destruct (Frame.empty df1); cbn [negb]; [lia |].
    rewrite write_length. destruct (read (files w) _); lia.
Qed.

Lemma save_to_csv_overwrites_witness :
  files (save_to_csv class_name one_row_table "sismos.csv"
           (save_to_csv class_name other_table "sismos.csv" empty_world))
  = files (save_to_csv class_name one_row_table "sismos.csv" empty_world).
Proof.
  apply (proj1 (save_to_csv_overwrites class_name other_table one_row_table
                  "sismos.csv" empty_world eq_refl eq_refl)).
Defined.

(* ------------------------------------------------------------------ *)
(** ** The driver *)

Lemma fold_print (lines : list string) (w : World) :
  files (fold_left print lines w) = files w
  /\ base_dir (fold_left print lines w) = base_dir w
  /\ disk_error (fold_left print lines w) = disk_error w
  /\ console (fold_left print lines w) = console w ++ lines.
Proof.
  revert w. induction lines as [|l rest IH]; intro w; cbn [fold_left].
  - repeat split. now rewrite app_nil_r.
  - destruct (IH (print w l)) as [H1 [H2 [H3 H4]]].
    rewrite H1, H2, H3, H4. cbn. repeat split. now rewrite <- app_assoc.
Qed.

Section DriverFacts.

Variable str_exn : exn -> string.
Variable str_nat : nat -> string.
Variable str_time : option Z -> string.
Variable info_lines : DataFrame -> list string.
Variable normal : nat -> float.

(** X14. When the request fails (no connection, a timeout, or a status
    from 400 to 599) the driver ends normally without touching the store:
    after its banner it prints the line of the fetcher and then
    "No se pudieron obtener datos...". *)
Theorem main_on_fetch_failure (net : Requests.network) (e : exn) (w : World) :
  (exists msg, net = Requests.Unreachable msg /\ e = ConnectionError msg)
  \/ (exists msg, net = Requests.NoAnswerInTime msg /\ e = Timeout msg)
  \/ (exists r, net = Requests.Answers r
                 /\ error_status (Requests.status_code r)
                 /\ e = HTTPError (Requests.status_code r)) ->
  snd (main str_exn str_nat str_time info_lines normal net w) = Ok tt
  /\ files (fst (main str_exn str_nat str_time info_lines normal net w)) = files w
  /\ console (fst (main str_exn str_nat str_time info_lines normal net w))
     = console w ++ banner (base_dir w)
       ++ [String.append "Error al obtener datos: " (str_exn e); no_data_line].
Proof.
  intro H. unfold main, fetch_earthquake_data.
  assert (Hfetch :
            (response <- Requests.get net ;;
             _ <- Requests.raise_for_status response ;;
             Requests.json_body response) = Raise e
            /\ Requests.is_RequestException e = true).
  { destruct H as [[msg [-> ->]] | [[msg [-> ->]] | [r [-> [Hs ->]]]]].
    - split; reflexivity.
    - split; reflexivity.
    - cbn [Requests.get bind]. rewrite (raise_for_status_error r Hs).
      split; reflexivity. }
  destruct Hfetch as [-> ->].
  cbn -[String.append]. rewrite <- !app_assoc.
  repeat split.
Qed.

Lemma fetch_answer (status : nat) (data : json) :
  ~ error_status status ->
  fetch_earthquake_data str_exn
    (Requests.Answers
       {| Requests.status_code := status; Requests.body := Some data |})
  = (Ok data, []).
Proof.
  intro H. unfold fetch_earthquake_data. cbn [Requests.get bind].
  rewrite raise_for_status_other by exact H. reflexivity.
Qed.

(** X15. A response that is not an error but whose JSON body is falsy (an
    empty dict or list, null, zero) is treated like a failed request: the
    driver prints "No se pudieron obtener datos..." right after its banner,
    with no error line, and neither transforms nor writes. *)
Theorem main_on_falsy_body (status : nat) (data : json) (w : World) :
  ~ error_status status ->
  truthy data = false ->
  let net := Requests.Answers
               {| Requests.status_code := status; Requests.body := Some data |} in
  snd (main str_exn str_nat str_time info_lines normal net w) = Ok tt
  /\ files (fst (main str_exn str_nat str_time info_lines normal net w)) = files w
  /\ console (fst (main str_exn str_nat str_time info_lines normal net w)) = console w ++ banner (base_dir w) ++ [no_data_line].
Proof.
  intros Hs Ht net. unfold net, main.
  rewrite (fetch_answer status data Hs), Ht.
  cbn -[String.append]. rewrite <- !app_assoc.
  repeat split.
Qed.

(** X16. When the response carries a truthy payload for which the
    transformer fails, the exception stops the driver: the run ends with
    that exception, "Procesando datos..." is the last line printed, and
    nothing is written. *)
Theorem main_stops_on_transformer_error
  (status : nat) (data : json) (e : exn) (w : World) :
  ~ error_status status ->
  truthy data = true ->
  process_data normal data = Raise e ->
  let net := Requests.Answers
               {| Requests.status_code := status; Requests.body := Some data |} in
  snd (main str_exn str_nat str_time info_lines normal net w) = Raise e
  /\ files (fst (main str_exn str_nat str_time info_lines normal net w)) = files w
  /\ console (fst (main str_exn str_nat str_time info_lines normal net w))
     = console w ++ banner (base_dir w) ++ ["Procesando datos..."].
Proof.
  intros Hs Ht He net. unfold net, main.
  rewrite (fetch_answer status data Hs), Ht, He.
  cbn -[String.append]. rewrite <- !app_assoc.
  repeat split.
Qed.

Lemma enriched_time_column (recs : list RawEvent) :
  Frame.getcol (enriched_frame normal recs) "time"
  = Ok (TimeCol (map Series.epoch_ms (map raw_time recs))).
Proof. reflexivity. Qed.

(** X17. When the response carries a payload that the transformer turns
    into a table and the disk accepts the write, the driver ends normally
    with that table stored under [<base>/datos/earthquake_data.csv], every
    other path being left as it was; it prints the number of rows, the
    earliest and latest timestamp of the table, the two lines of the writer
    and the output of [df.info()] followed by "None". *)
Theorem main_stores_table
  (status : nat) (data : json) (df : DataFrame) (w : World) :
  ~ error_status status ->
  truthy data = true ->
  process_data normal data = Ok df ->
  disk_error w = None ->
  let net := Requests.Answers
               {| Requests.status_code := status; Requests.body := Some data |} in
  let path := output_path_of w default_filename in
  let times := time_cells (Frame.getcol df "time") in
  snd (main str_exn str_nat str_time info_lines normal net w) = Ok tt
  /\ read (files (fst (main str_exn str_nat str_time info_lines normal net w))) path = Some df
  /\ (forall other, other <> path ->
         read (files (fst (main str_exn str_nat str_time info_lines normal net w))) other = read (files w) other)
  /\ console (fst (main str_exn str_nat str_time info_lines normal net w))
     = console w ++ banner (base_dir w)
       ++ [ "Procesando datos...";
            String.append nl "Resumen de datos:";
            String.append "Registros obtenidos: " (str_nat (Frame.len df));
            String.append "Rango temporal: "
              (String.append (str_time (time_min times))
                 (String.append " a " (str_time (time_max times))));
            String.append "Datos guardados en: " path;
            String.append "Ruta absoluta: " path;
            String.append nl "Estructura del dataset:" ]
       ++ info_lines df ++ ["None"].
Proof.
  intros Hs Ht Hdf Hdisk net path times. unfold net, main.
  rewrite (fetch_answer status data Hs), Ht, Hdf.
  destruct (process_data_ok_inv normal data df Ht Hdf)
    as [fs [items [recs [_ [_ [_ [Hne Edf]]]]]]].
  assert (Hnonempty : Frame.empty df = false).
  { rewrite Edf. destruct recs; [contradiction | reflexivity]. }
  unfold times, path. rewrite Edf, enriched_time_column.
  cbn [bind col_min col_max time_cells fold_left]. rewrite <- Edf.
  cbv zeta. cbn [fst snd].
  match goal with
  | |- context [save_to_csv str_exn df default_filename ?w0] =>
      set (w1 := w0);
      assert (Hw1 : files w1 = files w /\ base_dir w1 = base_dir w
                    /\ disk_error w1 = None
                    /\ console w1 = console w ++ banner (base_dir w)
                         ++ [ "Procesando datos...";
                              String.append nl "Resumen de datos:";
                              String.append "Registros obtenidos: "
                                (str_nat (Frame.len df));
                              String.append "Rango temporal: "
                                (String.append
                                   (str_time (time_min (map Series.epoch_ms
                                                          (map raw_time recs))))
                                   (String.append " a "
                                      (str_time (time_max (map Series.epoch_ms
                                                             (map raw_time recs)))))) ])
        by (unfold w1; cbn -[String.append]; rewrite <- !app_assoc;
            repeat split; exact Hdisk)
  end.
  destruct Hw1 as [Hf [Hb [Hd Hc]]].
  pose proof (save_to_csv_stores str_exn df default_filename w1 Hnonempty Hd) as Hsave.
  cbv zeta in Hsave. unfold output_path_of in Hsave. rewrite Hb in Hsave.
  destruct Hsave as [Hread [Hother [Hcons _]]].
  destruct (fold_print (info_lines df)
              (print (save_to_csv str_exn df default_filename w1)
                 (String.append nl "Estructura del dataset:")))
    as [F1 [_ [_ F4]]].
  split; [reflexivity |].
  cbn [print files console]. rewrite F1, F4. cbn [print files console].
  split; [exact Hread |].
  split.
  - intros other Ho. rewrite (Hother other Ho). now rewrite Hf.
  - rewrite Hcons, Hc. unfold output_path_of.
    rewrite <- !app_assoc. reflexivity.
Qed.

(** X18. The driver never stores an empty table: whatever the network
    answers, on a disk that accepts writes, every path of the store either
    holds what it held before the run or holds a table with at least one
    row. *)
Theorem main_never_stores_empty_table
  (net : Requests.network) (w : World) (path : string) :
  disk_error w = None ->
  read (files (fst (main str_exn str_nat str_time info_lines normal net w))) path = read (files w) path
  \/ exists d, read (files (fst (main str_exn str_nat str_time info_lines normal net w))) path = Some d
                /\ Frame.empty d = false.
Proof.
  intro Hdisk. unfold main.
  destruct (fetch_earthquake_data str_exn net) as [fetched lines].
  match goal with
  | |- context [fold_left print lines ?w0] =>
      destruct (fold_print lines w0) as [F1 [F2 [F3 _]]];
      set (w1 := fold_left print lines w0) in *
  end.
  cbn [print files base_dir disk_error] in F1, F2, F3.
  destruct fetched as [data|e|]; try (left; cbn [fst]; now rewrite F1).
  destruct (truthy data) eqn:Ht; [| left; cbn [fst print files]; now rewrite F1].
  destruct (process_data normal data) as [df|e|] eqn:Hdf;
    try (left; cbn [fst print files]; now rewrite F1).
  destruct (process_data_ok_inv normal data df Ht Hdf)
    as [fs [items [recs [_ [_ [_ [Hne Edf]]]]]]].
  assert (Hnonempty : Frame.empty df = false).
  { rewrite Edf. destruct recs; [contradiction | reflexivity]. }
  rewrite Edf, enriched_time_column.
  cbn [bind col_min col_max]. rewrite <- Edf. cbv zeta. cbn [fst].
  match goal with
  | |- context [fold_left print (info_lines df) ?w0] =>
      destruct (fold_print (info_lines df) w0) as [G1 _]
  end.
  cbn [print files]. rewrite G1. cbn [print files].
  rewrite save_to_csv_files, Hnonempty. cbn [negb print files disk_error].
  rewrite F3, Hdisk.
  match goal with
  | |- context [write ?fs0 ?p0 df] =>
      destruct (string_dec path p0) as [-> | Hother]
  end.
  - right. exists df. split; [apply read_write_same | exact Hnonempty].
  - left. rewrite (read_write_other _ _ _ _ Hother).
    cbn [print files]. now rewrite F1.
Qed.

End DriverFacts.

Lemma main_on_fetch_failure_witness :
  snd (main class_name show_nat show_time show_info constant_normal
         (Requests.Answers {| Requests.status_code := 503; Requests.body := None |})
         empty_world) = Ok tt
  /\ files (fst (main class_name show_nat show_time show_info constant_normal
                   (Requests.Answers
                      {| Requests.status_code := 503; Requests.body := None |})
                   empty_world)) = files empty_world
  /\ console (fst (main class_name show_nat show_time show_info constant_normal
                     (Requests.Answers
                        {| Requests.status_code := 503; Requests.body := None |})
                     empty_world))
     = console empty_world ++ banner (base_dir empty_world)
       ++ [String.append "Error al obtener datos: " (class_name (HTTPError 503));
           no_data_line].
Proof.
  apply (main_on_fetch_failure class_name show_nat show_time show_info
           constant_normal _ (HTTPError 503) empty_world).
  right. right.
  exists {| Requests.status_code := 503; Requests.body := None |}.
  split; [reflexivity |]. split; [| reflexivity].
  unfold error_status. cbn. lia.
Defined.

Lemma main_on_falsy_body_witness :
  console (fst (main class_name show_nat show_time show_info constant_normal
                  (Requests.Answers
                     {| Requests.status_code := 200; Requests.body := Some (JObj []) |})
                  empty_world))
  = console empty_world ++ banner (base_dir empty_world) ++ [no_data_line].
Proof.
  assert (Hs : ~ error_status 200) by (unfold error_status; lia).
  exact (proj2 (proj2 (main_on_falsy_body class_name show_nat show_time show_info
                         constant_normal 200 (JObj []) empty_world Hs eq_refl))).
Defined.

Lemma main_stops_on_transformer_error_witness :
  snd (main class_name show_nat show_time show_info constant_normal
         (Requests.Answers
            {| Requests.status_code := 200;
               Requests.body := Some (collection []) |})
         empty_world)
  = Raise (KeyError (Key "time")).
Proof.
  assert (Hs : ~ error_status 200) by (unfold error_status; lia).
  exact (proj1 (main_stops_on_transformer_error class_name show_nat show_time
                  show_info constant_normal 200 (collection [])
                  (KeyError (Key "time")) empty_world Hs eq_refl eq_refl)).
Defined.

Lemma main_stores_table_witness :
  exists df,
    process_data constant_normal (collection two_features) = Ok df
    /\ snd (main class_name show_nat show_time show_info constant_normal
              (Requests.Answers
                 {| Requests.status_code := 200;
                    Requests.body := Some (collection two_features) |})
              empty_world) = Ok tt
    /\ read (files (fst (main class_name show_nat show_time show_info
                           constant_normal
                           (Requests.Answers
                              {| Requests.status_code := 200;
                                 Requests.body := Some (collection two_features) |})
                           empty_world)))
            "/repo/datos/earthquake_data.csv"
       = Some df.
Proof.
  assert (Hs : ~ error_status 200) by (unfold error_status; lia).
  eexists. split; [reflexivity |].
  match goal with
  | |- _ /\ read _ _ = Some ?d =>
      pose proof (main_stores_table class_name show_nat show_time show_info
                    constant_normal 200 (collection two_features) d empty_world
                    Hs eq_refl eq_refl eq_refl) as H
  end.
  cbv zeta in H. destruct H as [Hend [Hread _]].
  split; [exact Hend | exact Hread].
Defined.

(* ------------------------------------------------------------------ *)
(** ** The time range of the summary *)

Lemma time_min_max_some (l : list (option Z)) (t : Z) :
  In (Some t) l ->
  exists lo hi, time_min l = Some lo /\ time_max l = Some hi
                /\ (lo <= t <= hi)%Z.
Proof.
  induction l as [|x rest IH]; [contradiction |].
  intros [-> | Hin].
  - cbn [time_min time_max].
    destruct (time_min rest) as [a|]; destruct (time_max rest) as [b|];
      eexists; eexists; (split; [reflexivity | split; [reflexivity | lia]]).
  - destruct (IH Hin) as [lo [hi [Hlo [Hhi Hb]]]].
    cbn [time_min time_max]. rewrite Hlo, Hhi.
    destruct x as [a|];
      eexists; eexists; (split; [reflexivity | split; [reflexivity | lia]]).
Qed.

Lemma time_min_member (l : list (option Z)) (lo : Z) :
  time_min l = Some lo -> In (Some lo) l.
Proof.
  revert lo. induction l as [|x rest IH]; intros lo; [discriminate |].
  cbn [time_min]. destruct x as [a|].
  - destruct (time_min rest) as [b|] eqn:E.
    + intros [= <-]. destruct (Z.min_spec a b) as [[_ ->] | [_ ->]].
      * left. reflexivity.
      * right. exact (IH b eq_refl).
    + intros [= <-]. left. reflexivity.
  - intro H. right. exact (IH lo H).
Qed.

Lemma time_max_member (l : list (option Z)) (hi : Z) :
  time_max l = Some hi -> In (Some hi) l.
Proof.
  revert hi. induction l as [|x rest IH]; intros hi; [discriminate |].
  cbn [time_max]. destruct x as [a|].
  - destruct (time_max rest) as [b|] eqn:E.
    + intros [= <-]. destruct (Z.max_spec a b) as [[_ ->] | [_ ->]].
      * right. exact (IH b eq_refl).
      * left. reflexivity.
    + intros [= <-]. left. reflexivity.
  - intro H. right. exact (IH hi H).
Qed.

(** X19. The range of the summary line brackets the table: the earliest
    and the latest timestamp are timestamps of the column, every timestamp
    of the column lies between them, and they are NaT only when every cell
    of the column is. *)
Theorem time_range_brackets (l : list (option Z)) :
  (forall t, In (Some t) l ->
             exists lo hi, time_min l = Some lo /\ time_max l = Some hi
                           /\ (lo <= t <= hi)%Z)
  /\ (forall lo, time_min l = Some lo -> In (Some lo) l)
  /\ (forall hi, time_max l = Some hi -> In (Some hi) l)
  /\ (time_min l = None -> forall t, ~ In (Some t) l)
  /\ (time_max l = None -> forall t, ~ In (Some t) l).
Proof.
  split; [exact (time_min_max_some l) |].
  split; [exact (time_min_member l) |].
  split; [exact (time_max_member l) |].
  split; intros H t Hin;
    destruct (time_min_max_some l t Hin) as [lo [hi [Hlo [Hhi _]]]];
    congruence.
Qed.

Lemma time_range_brackets_witness :
  exists lo hi,
    time_min [Some 5%Z; None; Some (-3)%Z; Some 9%Z] = Some lo
    /\ time_max [Some 5%Z; None; Some (-3)%Z; Some 9%Z] = Some hi
    /\ (lo <= 5 <= hi)%Z.
Proof.
  apply (proj1 (time_range_brackets [Some 5%Z; None; Some (-3)%Z; Some 9%Z]) 5%Z).
  left. reflexivity.
Defined.

(* ------------------------------------------------------------------ *)
(** ** What the flattening keeps of a feature *)

(** X20. The flattening of a feature succeeds as soon as the five keys of
    [properties] and three elements of the coordinates are there, whatever
    else the feature holds: other keys of the feature, of its properties
    and of its geometry are ignored, and so are the elements of the
    coordinates after the third.  The record takes the longitude from
    element 0, the latitude from element 1 and the depth from element 2. *)
Theorem record_of_ignores_the_rest
  (kv pk gk : list (string * json))
  (time mag place ty st lon lat depth : json) (more : list json) :
  dict_get kv "properties" = Some (JObj pk) ->
  dict_get kv "geometry" = Some (JObj gk) ->
  dict_get pk "time" = Some time ->
  dict_get pk "mag" = Some mag ->
  dict_get pk "place" = Some place ->
  dict_get pk "type" = Some ty ->
  dict_get pk "status" = Some st ->
  dict_get gk "coordinates" = Some (JArr (lon :: lat :: depth :: more)) ->
  record_of (JObj kv)
  = Ok {| raw_time := time; raw_magnitude := mag; raw_place := place;
          raw_depth_km := depth; raw_longitude := lon; raw_latitude := lat;
          raw_type := ty; raw_status := st |}.
Proof.
  intros Hp Hg Ht Hm Hpl Hty Hst Hc.
  unfold record_of. cbn [getitem].
  rewrite Hp. cbn [bind]. rewrite Hg. cbn [bind getitem].
  rewrite Ht. cbn [bind]. rewrite Hm. cbn [bind]. rewrite Hpl. cbn [bind].
  rewrite Hc. cbn [bind getitem nth_error].
  rewrite Hty. cbn [bind]. rewrite Hst. reflexivity.
Qed.

Lemma record_of_ignores_the_rest_witness :
  record_of
    (JObj [ ("id", JStr (codes "us7000"));
            ("geometry",
             JObj [ ("coordinates",
                     JArr [JNum (int 1); JNum (int 2); JNum (int 3); JNull]) ]);
            ("properties",
             JObj [ ("tsunami", JNum (int 0)); ("status", JNull);
                    ("type", JNull); ("place", JNull);
                    ("mag", JNum (int 5)); ("time", JNum (int 0)) ]) ])
  = Ok {| raw_time := JNum (int 0); raw_magnitude := JNum (int 5);
          raw_place := JNull; raw_depth_km := JNum (int 3);
          raw_longitude := JNum (int 1); raw_latitude := JNum (int 2);
          raw_type := JNull; raw_status := JNull |}.
Proof.
  apply (record_of_ignores_the_rest
           [ ("id", JStr (codes "us7000"));
             ("geometry",
              JObj [ ("coordinates",
                      JArr [JNum (int 1); JNum (int 2); JNum (int 3); JNull]) ]);
             ("properties",
              JObj [ ("tsunami", JNum (int 0)); ("status", JNull);
                     ("type", JNull); ("place", JNull);
                     ("mag", JNum (int 5)); ("time", JNum (int 0)) ]) ]
           [ ("tsunami", JNum (int 0)); ("status", JNull);
             ("type", JNull); ("place", JNull);
             ("mag", JNum (int 5)); ("time", JNum (int 0)) ]
           [ ("coordinates",
              JArr [JNum (int 1); JNum (int 2); JNum (int 3); JNull]) ]
           _ _ _ _ _ _ _ _ [JNull]); reflexivity.
Defined.

(* ================================================================== *)
(** * The derived columns of the returned table *)

Lemma severity_of_magnitude (m : float) :
  lt (int 0) m = true -> le m (int 10) = true ->
  (exists l, severity m = Some l /\ In l severity_labels) /\
  (severity m = Some "leve" <-> le m (int 3) = true) /\
  (severity m = Some "moderado" <-> lt (int 3) m = true /\ le m (int 5) = true) /\
  (severity m = Some "fuerte" <-> lt (int 5) m = true /\ le m (int 7) = true) /\
  (severity m = Some "grave" <-> lt (int 7) m = true).
Proof.
  destruct m as [q| | |]; try discriminate.
  intros H0 H10. bins.
Qed.

Lemma depth_category_of_depth (d : float) :
  le (int 0) d = true ->
  (depth_category d = Some "superficial" <->
   lt (int 0) d = true /\ le d (int 30) = true) /\
  (depth_category d = Some "intermedio" <->
   lt (int 30) d = true /\ le d (int 100) = true) /\
  (depth_category d = Some "profundo" <->
   lt (int 100) d = true /\ le d (int 300) = true) /\
  (depth_category d = Some "manto" <->
   lt (int 300) d = true /\ le d (int 700) = true).
Proof.
  destruct d as [q| | |]; try discriminate.
  - intros H0. bins.
  - intros _. repeat split; intros; try discriminate;
      repeat match goal with H : _ /\ _ |- _ => destruct H end;
      try discriminate.
Qed.

Lemma some_iff {A : Type} (x y : A) (P : Prop) :
  (x = y <-> P) -> (Some x = Some y <-> P).
Proof.
  intros [H1 H2]. split.
  - intros [= E]. exact (H1 E).
  - intro HP. now rewrite (H2 HP).
Qed.

Lemma coordinate_of_inv (f : json) (i : nat) (v : json) :
  coordinate_of f i = Some v ->
  exists l, coordinates_of f = Some (JArr l) /\ nth_error l i = Some v.
Proof.
  unfold coordinate_of.
  destruct (coordinates_of f) as [c|]; [| discriminate].
  destruct c; try discriminate.
  intro H. exists l. split; [reflexivity | exact H].
Qed.

(** The severity and depth cells of row [i] of a returned table. *)
Lemma severity_cell_of_row
  (normal : nat -> float) (kv : list (string * json)) (fs : list json)
  (df : DataFrame) (i : nat) (f : json) (mag : json) :
  dict_get kv "features" = Some (JArr fs) ->
  process_data normal (JObj kv) = Ok df ->
  nth_error fs i = Some f ->
  property_of f "mag" = Some mag ->
  severity_cell df i = Some (severity (Series.to_float mag)).
Proof.
  intros Hfs Hdf Hi Hm.
  destruct (table_rows normal kv fs df Hfs Hdf) as [_ Hrows].
  destruct (Hrows i f Hi)
    as [time [mag' [place [_ [Hmag [_ [_ [_ [_ [_ [Hsev _]]]]]]]]]]].
  rewrite Hm in Hmag. injection Hmag as <-. exact Hsev.
Qed.

Lemma coordinate_cells_of_row
  (normal : nat -> float) (kv : list (string * json)) (fs : list json)
  (df : DataFrame) (i : nat) (f : json) (l : list json) :
  dict_get kv "features" = Some (JArr fs) ->
  process_data normal (JObj kv) = Ok df ->
  nth_error fs i = Some f ->
  coordinates_of f = Some (JArr l) ->
  exists lon lat depth,
    nth_error l 0 = Some lon /\ nth_error l 1 = Some lat
    /\ nth_error l 2 = Some depth
    /\ depth_category_cell df i = Some (depth_category (Series.to_float depth))
    /\ continent_cell df i
       = Some (get_continent (Series.to_float lat) (Series.to_float lon)).
Proof.
  intros Hfs Hdf Hi Hl.
  destruct (table_rows normal kv fs df Hfs Hdf) as [_ Hrows].
  destruct (Hrows i f Hi)
    as [time [mag [place [_ [_ [_ [_ [_ [_ [_ [_ [_ Hco]]]]]]]]]]]].
  destruct (Hco l Hl)
    as [lon [lat [depth [H0 [H1 [H2 [_ [_ [_ [Hdep Hcont]]]]]]]]]].
  exists lon, lat, depth. repeat split; assumption.
Qed.

(** C2. In every table the transformer returns, a row whose magnitude m
    lies in (0, 10] has a severity that is one of the four labels, each
    label being assigned exactly on its bin (0,3], (3,5], (5,7], (7,10];
    the features of magnitude 3.0 and 3.0001 give the rows leve and
    moderado. *)
Theorem severity_inclusive_upper_bins :
  (forall (normal : nat -> float) (kv : list (string * json)) (fs : list json)
          (df : DataFrame),
      dict_get kv "features" = Some (JArr fs) ->
      process_data normal (JObj kv) = Ok df ->
      forall (i : nat) (f : json) (m : float),
        nth_error fs i = Some f ->
        property_of f "mag" = Some (JNum m) ->
        lt (int 0) m = true -> le m (int 10) = true ->
        (exists l, severity_cell df i = Some (Some l) /\ In l severity_labels)
        /\ (severity_cell df i = Some (Some "leve") <-> le m (int 3) = true)
        /\ (severity_cell df i = Some (Some "moderado")
            <-> lt (int 3) m = true /\ le m (int 5) = true)
        /\ (severity_cell df i = Some (Some "fuerte")
            <-> lt (int 5) m = true /\ le m (int 7) = true)
        /\ (severity_cell df i = Some (Some "grave") <-> lt (int 7) m = true))
  /\ (forall normal : nat -> float,
        exists df,
          process_data normal
            (collection [feature_with_magnitude (int 3);
                         feature_with_magnitude (dec 30001 10000)]) = Ok df
          /\ severity_cell df 0 = Some (Some "leve")
          /\ severity_cell df 1 = Some (Some "moderado")).
Proof.
  split.
  - intros normal kv fs df Hfs Hdf i f m Hi Hm H0 H10.
    rewrite (severity_cell_of_row normal kv fs df i f (JNum m) Hfs Hdf Hi Hm).
    cbn [Series.to_float].
    destruct (severity_of_magnitude m H0 H10) as [[l [Hl Hin]] [A [B [C D]]]].
    split; [exists l; rewrite Hl; split; [reflexivity | exact Hin] |].
    split; [apply some_iff; exact A |].
    split; [apply some_iff; exact B |].
    split; [apply some_iff; exact C | apply some_iff; exact D].
  - intro normal. eexists. split; [reflexivity |]. split; reflexivity.
Qed.

Lemma severity_inclusive_upper_bins_witness :
  exists df,
    process_data constant_normal (collection two_features) = Ok df
    /\ (exists l, severity_cell df 1 = Some (Some l) /\ In l severity_labels)
    /\ severity_cell df 1 = Some (Some "leve").
Proof.
  eexists. split; [reflexivity |].
  match goal with
  | |- (exists l, severity_cell ?d _ = _ /\ _) /\ _ =>
      destruct (proj1 severity_inclusive_upper_bins constant_normal
                  [("type", JStr (codes "FeatureCollection"));
                   ("features", JArr two_features)]
                  two_features d eq_refl eq_refl
                  1%nat
                  (feature_of (JNum (int 1700000000000)) (JNum (dec 27 10)) JNull
                     (JStr (codes "earthquake")) (JStr (codes "reviewed"))
                     (JArr [JNum (dec 1425 10); JNum (dec (-65) 10); JNum (int 0)]))
                  (dec 27 10) eq_refl eq_refl eq_refl eq_refl)
        as [Hone [Hleve _]]
  end.
  split; [exact Hone |]. apply (proj2 Hleve). reflexivity.
Defined.

(** C3. In every table the transformer returns, a row whose depth d is
    not negative has its depth category by the inclusive-upper bins: each
    label is assigned exactly on its bin (0,30], (30,100], (100,300],
    (300,700]; the features of depth 30 and 30.0001 give the rows
    superficial and intermedio. *)
Theorem depth_category_inclusive_upper_bins :
  (forall (normal : nat -> float) (kv : list (string * json)) (fs : list json)
          (df : DataFrame),
      dict_get kv "features" = Some (JArr fs) ->
      process_data normal (JObj kv) = Ok df ->
      forall (i : nat) (f : json) (d : float),
        nth_error fs i = Some f ->
        coordinate_of f 2 = Some (JNum d) ->
        le (int 0) d = true ->
        (depth_category_cell df i = Some (Some "superficial")
         <-> lt (int 0) d = true /\ le d (int 30) = true)
        /\ (depth_category_cell df i = Some (Some "intermedio")
            <-> lt (int 30) d = true /\ le d (int 100) = true)
        /\ (depth_category_cell df i = Some (Some "profundo")
            <-> lt (int 100) d = true /\ le d (int 300) = true)
        /\ (depth_category_cell df i = Some (Some "manto")
            <-> lt (int 300) d = true /\ le d (int 700) = true))
  /\ (forall normal : nat -> float,
        exists df,
          process_data normal
            (collection [feature_with_depth (int 30);
                         feature_with_depth (dec 300001 10000)]) = Ok df
          /\ depth_category_cell df 0 = Some (Some "superficial")
          /\ depth_category_cell df 1 = Some (Some "intermedio")).
Proof.
  split.
  - intros normal kv fs df Hfs Hdf i f d Hi Hd H0.
    destruct (coordinate_of_inv f 2 (JNum d) Hd) as [l [Hl Hn]].
    destruct (coordinate_cells_of_row normal kv fs df i f l Hfs Hdf Hi Hl)
      as [lon [lat [depth [_ [_ [H2 [Hdep _]]]]]]].
    rewrite Hn in H2. injection H2 as <-.
    rewrite Hdep. cbn [Series.to_float].
    destruct (depth_category_of_depth d H0) as [A [B [C D]]].
    split; [apply some_iff; exact A |].
    split; [apply some_iff; exact B |].
    split; [apply some_iff; exact C | apply some_iff; exact D].
  - intro normal. eexists. split; [reflexivity |]. split; reflexivity.
Qed.

Lemma depth_category_inclusive_upper_bins_witness :
  exists df,
    process_data constant_normal (collection two_features) = Ok df
    /\ depth_category_cell df 0 = Some (Some "superficial").
Proof.
  eexists. split; [reflexivity |].
  match goal with
  | |- depth_category_cell ?d _ = _ =>
      destruct (proj1 depth_category_inclusive_upper_bins constant_normal
                  [("type", JStr (codes "FeatureCollection"));
                   ("features", JArr two_features)]
                  two_features d eq_refl eq_refl
                  0%nat (sample_feature JNull JNull) (int 15)
                  eq_refl eq_refl eq_refl)
        as [Hsup _]
  end.
  apply (proj2 Hsup). split; reflexivity.
Defined.

(* ------------------------------------------------------------------ *)
(** ** One row per feature *)

(** C4 (as amended). For a feature collection in which every feature has
    the required keys with values of the data model's types or null
    ([time] an integral number of epoch milliseconds within the timestamp
    range or null, [place] a string or null, [mag] and each of the three
    coordinates a number or null) and in which each of mag, longitude,
    latitude and depth is a number in at least one feature, the transformer
    returns a table with exactly one row per feature: its length is that of
    the features list, it has the fifteen columns of the enriched table,
    and every column has one cell per feature. *)
Theorem enriched_table_row_count
  (normal : nat -> float) (kv : list (string * json)) (fs : list json) :
  dict_get kv "features" = Some (JArr fs) ->
  forallb nullable_feature fs = true ->
  numbers_present fs = true ->
  exists df,
    process_data normal (JObj kv) = Ok df
    /\ Frame.len df = List.length fs
    /\ map fst (columns df) = enriched_columns
    /\ Forall (fun nc => Frame.col_length (snd nc) = List.length fs) (columns df).
Proof.
  intros Hfs Hnull Hnum.
  destruct (process_data_nullable normal kv fs Hfs Hnull Hnum)
    as [recs [Hrecs Hdf]].
  pose proof (Forall2_length (mapM_forall2 record_of fs recs Hrecs)) as Hlen.
  exists (enriched_frame normal recs).
  split; [exact Hdf |].
  split; [cbn; symmetry; exact Hlen |].
  split; [reflexivity |].
  rewrite Hlen. unfold enriched_frame. cbn [columns].
  repeat constructor; cbn [snd Frame.col_length];
    repeat (rewrite ?length_map, ?length_combine, ?length_seq, ?Nat.min_id);
    reflexivity.
Qed.

Lemma enriched_table_row_count_witness :
  exists df,
    process_data constant_normal (collection batch_with_nulls) = Ok df
    /\ Frame.len df = 3%nat
    /\ map fst (columns df) = enriched_columns
    /\ Forall (fun nc => Frame.col_length (snd nc) = 3%nat) (columns df).
Proof.
  apply (enriched_table_row_count constant_normal
           [("type", JStr (codes "FeatureCollection"));
            ("features", JArr batch_with_nulls)]
           batch_with_nulls).
  - reflexivity.
  - reflexivity.
  - reflexivity.
Defined.

(** X8. Whenever the transformer returns a table for a feature collection,
    the table has one row per feature, in the order of the features list,
    and row [i] is computed from feature [i] alone: its time is the
    feature's [time], its place the feature's [place], its region,
    severity and time of day are the per-value functions applied to the
    feature's [place], [mag] and [time], and its depth category and
    continent those applied to element 2 and to elements 1 (latitude) and 0
    (longitude) of the feature's coordinates. *)
Theorem rows_of_returned_table
  (normal : nat -> float) (kv : list (string * json)) (fs : list json)
  (df : DataFrame) :
  dict_get kv "features" = Some (JArr fs) ->
  process_data normal (JObj kv) = Ok df ->
  Frame.len df = List.length fs
  /\ forall i f, nth_error fs i = Some f ->
       exists time mag place,
         property_of f "time" = Some time
         /\ property_of f "mag" = Some mag
         /\ property_of f "place" = Some place
         /\ place_cell df i = Some place
         /\ time_cell df i = Some (Series.epoch_ms time)
         /\ region_cell df i = Some (Series.extract_cell place)
         /\ severity_cell df i = Some (severity (Series.to_float mag))
         /\ time_of_day_cell df i
            = Some (time_of_day (option_map hour_of_ms (Series.epoch_ms time)))
         /\ (forall l, coordinates_of f = Some (JArr l) ->
               exists lon lat depth,
                 nth_error l 0 = Some lon /\ nth_error l 1 = Some lat
                 /\ nth_error l 2 = Some depth
                 /\ depth_category_cell df i
                    = Some (depth_category (Series.to_float depth))
                 /\ continent_cell df i
                    = Some (get_continent (Series.to_float lat)
                              (Series.to_float lon))).
Proof.
  intros Hfs Hdf.
  destruct (table_rows normal kv fs df Hfs Hdf) as [Hlen Hrows].
  split; [exact Hlen |].
  intros i f Hi.
  destruct (Hrows i f Hi)
    as [time [mag [place [Ht [Hm [Hp [_ [Hpc [Htc [Hr [Hs [Htod _]]]]]]]]]]]].
  exists time, mag, place.
  repeat (split; [assumption |]).
  intros l Hl.
  exact (coordinate_cells_of_row normal kv fs df i f l Hfs Hdf Hi Hl).
Qed.

Lemma rows_of_returned_table_witness :
  exists df,
    process_data constant_normal (collection two_features) = Ok df
    /\ Frame.len df = 2%nat
    /\ severity_cell df 1 = Some (severity (dec 27 10))
    /\ continent_cell df 1 = Some (get_continent (dec (-65) 10) (dec 1425 10)).
Proof.
  eexists. split; [reflexivity |].
  match goal with
  | |- Frame.len ?d = _ /\ _ =>
      destruct (rows_of_returned_table constant_normal
                  [("type", JStr (codes "FeatureCollection"));
                   ("features", JArr two_features)]
                  two_features d eq_refl eq_refl) as [Hlen Hrows]
  end.
  split; [exact Hlen |].
  destruct (Hrows 1%nat _ eq_refl)
    as [time [mag [place [_ [Hm [_ [_ [_ [_ [Hsev [_ Hco]]]]]]]]]]].
  injection Hm as <-.
  split; [exact Hsev |].
  destruct (Hco _ eq_refl) as [lon [lat [depth [H0 [H1 [_ [_ Hc]]]]]]].
  injection H0 as <-. injection H1 as <-. exact Hc.
Defined.

(** X9. Nulls do not abort a batch, and a null gives a missing value in
    the row that holds it: under the conditions of C4 the transformer
    returns a table in which a row whose [mag] is null has no severity, a
    row whose depth is null no depth category, a row whose longitude or
    latitude is null the continent Ocean, a row whose [time] is null the
    time NaT and the time of day "dia", and a row whose [place] is null no
    region. *)
Theorem batch_with_nulls_succeeds
  (normal : nat -> float) (kv : list (string * json)) (fs : list json) :
  dict_get kv "features" = Some (JArr fs) ->
  forallb nullable_feature fs = true ->
  numbers_present fs = true ->
  exists df,
    process_data normal (JObj kv) = Ok df
    /\ Frame.len df = List.length fs
    /\ forall i f, nth_error fs i = Some f ->
         (property_of f "mag" = Some JNull -> severity_cell df i = Some None)
         /\ (coordinate_of f 2 = Some JNull ->
             depth_category_cell df i = Some None)
         /\ (coordinate_of f 0 = Some JNull \/ coordinate_of f 1 = Some JNull ->
             continent_cell df i = Some "Ocean")
         /\ (property_of f "time" = Some JNull ->
             time_cell df i = Some None /\ time_of_day_cell df i = Some "dia")
         /\ (property_of f "place" = Some JNull -> region_cell df i = Some None).
Proof.
  intros Hfs Hnull Hnum.
  destruct (process_data_nullable normal kv fs Hfs Hnull Hnum)
    as [recs [Hrecs Hdf]].
  exists (enriched_frame normal recs).
  split; [exact Hdf |].
  destruct (table_rows normal kv fs _ Hfs Hdf) as [Hlen Hrows].
  split; [exact Hlen |].
  intros i f Hi.
  destruct (Hrows i f Hi)
    as [time [mag [place [Ht [Hm [Hp [_ [_ [Htc [Hr [Hs [Htod Hco]]]]]]]]]]]].
  split; [| split; [| split; [| split]]].
  - intro H. rewrite H in Hm. injection Hm as <-. exact Hs.
  - intro H. destruct (coordinate_of_inv f 2 JNull H) as [l [Hl Hn]].
    destruct (Hco l Hl) as [lon [lat [depth [_ [_ [H2 [_ [_ [_ [Hd _]]]]]]]]]].
    rewrite Hn in H2. injection H2 as <-. exact Hd.
  - intro H.
    assert (Hl : exists l, coordinates_of f = Some (JArr l)
                           /\ (nth_error l 0 = Some JNull
                               \/ nth_error l 1 = Some JNull)).
    { destruct H as [H|H];
        destruct (coordinate_of_inv f _ JNull H) as [l [Hl Hn]];
        exists l; split; tauto. }
    destruct Hl as [l [Hl Hn]].
    destruct (Hco l Hl) as [lon [lat [depth [H0 [H1 [_ [_ [_ [_ [_ Hc]]]]]]]]]].
    unfold continent_cell. rewrite Hc. f_equal.
    apply get_continent_nan.
    destruct Hn as [Hn|Hn].
    + rewrite Hn in H0. injection H0 as <-. right. reflexivity.
    + rewrite Hn in H1. injection H1 as <-. left. reflexivity.
  - intro H. rewrite H in Ht. injection Ht as <-.
    split; [exact Htc | exact Htod].
  - intro H. rewrite H in Hp. injection Hp as <-. exact Hr.
Qed.

Lemma batch_with_nulls_succeeds_witness :
  exists df,
    process_data constant_normal (collection batch_with_nulls) = Ok df
    /\ Frame.len df = 3%nat
    /\ severity_cell df 1 = Some None
    /\ continent_cell df 2 = Some "Ocean".
Proof.
  destruct (batch_with_nulls_succeeds constant_normal
              [("type", JStr (codes "FeatureCollection"));
               ("features", JArr batch_with_nulls)]
              batch_with_nulls eq_refl eq_refl eq_refl)
    as [df [Hdf [Hlen Hrows]]].
  exists df. split; [exact Hdf |]. split; [exact Hlen |].
  split.
  - apply (proj1 (Hrows 1%nat _ eq_refl)). reflexivity.
  - apply (proj1 (proj2 (proj2 (Hrows 2%nat _ eq_refl)))). left. reflexivity.
Defined.

(* ------------------------------------------------------------------ *)
(** ** Where the writer writes *)

(** X11. Given a plain file name, a table that is not empty and a disk
    that accepts the write, the writer stores the table under
    [<base>/datos/<filename>], replacing what was stored there and leaving
    every other path as it was, and prints the two lines that give the
    path. *)
Theorem save_to_csv_writes
  (str_exn : exn -> string) (df : DataFrame) (filename : string) (w : World) :
  plain_name filename = true ->
  Frame.empty df = false ->
  disk_error w = None ->
  let w' := save_to_csv str_exn df filename w in
  let path := output_path_of w filename in
  read (files w') path = Some df
  /\ (forall other, other <> path -> read (files w') other = read (files w) other)
  /\ console w' = console w ++ [String.append "Datos guardados en: " path;
                                String.append "Ruta absoluta: " path]
  /\ base_dir w' = base_dir w /\ disk_error w' = disk_error w.
Proof.
  intros _ Hne Hdisk. exact (save_to_csv_stores str_exn df filename w Hne Hdisk).
Qed.

Lemma save_to_csv_writes_witness :
  read (files (save_to_csv class_name one_row_table "sismos.csv" empty_world))
       "/repo/datos/sismos.csv"
  = Some one_row_table
  /\ console (save_to_csv class_name one_row_table "sismos.csv" empty_world)
     = [ "Datos guardados en: /repo/datos/sismos.csv";
         "Ruta absoluta: /repo/datos/sismos.csv" ].
Proof.
  pose proof (save_to_csv_writes class_name one_row_table "sismos.csv"
                empty_world eq_refl eq_refl eq_refl) as H.
  cbv zeta in H. destruct H as [Hread [_ [Hconsole _]]].
  split; [exact Hread | exact Hconsole].
Defined.

Lemma main_never_stores_empty_table_witness :
  read (files (fst (main class_name show_nat show_time show_info constant_normal
                      (Requests.Answers
                         {| Requests.status_code := 200;
                            Requests.body := Some (collection two_features) |})
                      empty_world)))
       "/repo/datos/earthquake_data.csv"
  = read (files empty_world) "/repo/datos/earthquake_data.csv"
  \/ exists d,
       read (files (fst (main class_name show_nat show_time show_info
                           constant_normal
                           (Requests.Answers
                              {| Requests.status_code := 200;
                                 Requests.body := Some (collection two_features) |})
                           empty_world)))
            "/repo/datos/earthquake_data.csv"
       = Some d
       /\ Frame.empty d = false.
Proof.
  apply (main_never_stores_empty_table class_name show_nat show_time show_info
           constant_normal). reflexivity.
Defined.
